(** * SSRF guard of the page-fetch and browser scripts

    A shallow embedding of the guard shared by [fetch_page.py],
    [analyze_landing.py], [analyze_visual.py] and the two
    [capture_screenshot.py] scripts: the address classifier
    [_is_public_ip], the host validator [_is_public_host], the URL
    validator [_validate_url], the Playwright [route_handler] with its
    shared [host_cache], the final-URL check [_validate_final_page_url]
    and the redirect loop of [fetch_page].

    The scripts lean on three parts of the Python standard library
    ([str], [urllib.parse], [ipaddress]); the fragments they use are
    modelled first, following CPython 3.11 (with the current tables of
    private ranges of [ipaddress]).  Python strings are taken to
    be sequences of ASCII code points.  Of [requests], the attributes of
    a response that [fetch_page] reads, its property [is_redirect] and
    the classes of its exceptions are modelled.  DNS and the HTTP client
    are the environment: they are oracles over the history of the calls
    made so far, so that an answer may change from one call to the next. *)

From Stdlib Require Import ZArith Ascii String List Bool Lia.
From stdpp Require Import base option list gmap strings pretty.

Local Open Scope string_scope.
Local Open Scope Z_scope.

(** ** Python [str] methods used by the guard *)

Module PyStr.

Definition code (c : ascii) : N := N_of_ascii c.

Definition between (lo hi : N) (c : ascii) : bool :=
  ((lo <=? code c) && (code c <=? hi))%N.

Definition is_digit (c : ascii) : bool := between 48 57 c.
Definition is_upper (c : ascii) : bool := between 65 90 c.
Definition is_lower (c : ascii) : bool := between 97 122 c.
Definition is_alpha (c : ascii) : bool := is_upper c || is_lower c.
Definition is_hex (c : ascii) : bool :=
  is_digit c || between 65 70 c || between 97 102 c.

(** [str.isspace] on ASCII: TAB, LF, VT, FF, CR, FS, GS, RS, US, SPACE. *)
Definition is_space (c : ascii) : bool :=
  between 9 13 c || between 28 32 c.

(** The set [_WHATWG_C0_CONTROL_OR_SPACE] of [urllib.parse]. *)
Definition is_c0_or_space (c : ascii) : bool := between 0 32 c.

(** The list [_UNSAFE_URL_BYTES_TO_REMOVE]: TAB, CR, LF. *)
Definition is_unsafe_url_byte (c : ascii) : bool :=
  ((code c =? 9) || (code c =? 13) || (code c =? 10))%N.

Definition lower_char (c : ascii) : ascii :=
  if is_upper c then ascii_of_N (code c + 32) else c.

Fixpoint lower (s : string) : string :=
  match s with
  | EmptyString => EmptyString
  | String c s' => String (lower_char c) (lower s')
  end.

Fixpoint all_chars (p : ascii -> bool) (s : string) : bool :=
  match s with
  | EmptyString => true
  | String c s' => p c && all_chars p s'
  end.

(** [c in s] for a one-character [c]. *)
Fixpoint contains (c : ascii) (s : string) : bool :=
  match s with
  | EmptyString => false
  | String d s' => if ascii_dec c d then true else contains c s'
  end.

Fixpoint lstrip (p : ascii -> bool) (s : string) : string :=
  match s with
  | EmptyString => EmptyString
  | String c s' => if p c then lstrip p s' else s
  end.

Fixpoint rstrip (p : ascii -> bool) (s : string) : string :=
  match s with
  | EmptyString => EmptyString
  | String c s' =>
      match rstrip p s' with
      | EmptyString => if p c then EmptyString else String c EmptyString
      | r => String c r
      end
  end.

(** [s.strip()]: whitespace removed at both ends. *)
Definition strip (s : string) : string := rstrip is_space (lstrip is_space s).

(** [s.replace(c, "")] for each [c] satisfying [p]. *)
Fixpoint remove (p : ascii -> bool) (s : string) : string :=
  match s with
  | EmptyString => EmptyString
  | String c s' => if p c then remove p s' else String c (remove p s')
  end.

(** [s.partition(c)]: text before the first [c], whether [c] was found,
    text after it. *)
Fixpoint partition (c : ascii) (s : string) : string * bool * string :=
  match s with
  | EmptyString => (EmptyString, false, EmptyString)
  | String d s' =>
      if ascii_dec c d then (EmptyString, true, s')
      else let '(a, found, b) := partition c s' in (String d a, found, b)
  end.

(** [s.rpartition(c)]: split at the last [c]; when [c] is absent the
    whole text is the third component. *)
Fixpoint rpartition (c : ascii) (s : string) : string * bool * string :=
  match s with
  | EmptyString => (EmptyString, false, EmptyString)
  | String d s' =>
      let '(a, found, b) := rpartition c s' in
      if found then (String d a, true, b)
      else if ascii_dec c d then (EmptyString, true, s')
      else (EmptyString, false, String d b)
  end.

(** [s.split(c)]: never empty, [""] splits to [[""]]. *)
Fixpoint split (c : ascii) (s : string) : list string :=
  match s with
  | EmptyString => [EmptyString]
  | String d s' =>
      if ascii_dec c d then EmptyString :: split c s'
      else match split c s' with
           | [] => [String d EmptyString]
           | w :: ws => String d w :: ws
           end
  end.

(** Text before the first character satisfying [p], and the rest
    (which starts with that character when it is not empty). *)
Fixpoint break (p : ascii -> bool) (s : string) : string * string :=
  match s with
  | EmptyString => (EmptyString, EmptyString)
  | String c s' =>
      if p c then (EmptyString, s)
      else let '(a, b) := break p s' in (String c a, b)
  end.

Definition digit_val (c : ascii) : Z :=
  if is_digit c then Z.of_N (code c) - 48
  else if between 65 70 c then Z.of_N (code c) - 55
  else Z.of_N (code c) - 87.

(** [int(s, base)] for a text of digits of that base. *)
Definition int_of (base : Z) (s : string) : Z :=
  fold_left (fun acc c => acc * base + digit_val c)
            (list_ascii_of_string s) 0.


End PyStr.

(** ** The [ipaddress] module: parsing and the six address classes *)

Module ipaddress.
Import PyStr.

(** An address object: its version and its integer [_ip].  The scope
    id of an IPv6 address is parsed and plays no part in the classes. *)
Inductive Address : Type :=
| IPv4Address (_ip : Z)
| IPv6Address (_ip : Z).

Definition _parse_octet (octet_str : string) : option Z :=
  match octet_str with
  | EmptyString => None
  | String c0 _ =>
      if negb (all_chars is_digit octet_str) then None
      else if (3 <? String.length octet_str)%nat then None
      else if negb (String.eqb octet_str "0") && Ascii.eqb c0 "0" then None
      else
        let octet_int := int_of 10 octet_str in
        if 255 <? octet_int then None else Some octet_int
  end.

(** [int.from_bytes(octets, 'big')]. *)
Definition from_bytes_big (octets : list Z) : Z :=
  fold_left (fun acc o => acc * 256 + o) octets 0.

Definition v4_int_from_string (ip_str : string) : option Z :=
  if String.eqb ip_str "" then None
  else
    let octets := split "." ip_str in
    if negb (length octets =? 4)%nat then None
    else from_bytes_big <$> mapM _parse_octet octets.

(** [IPv4Address(address)] for a text [address]; [None] stands for
    [AddressValueError]. *)
Definition IPv4Address_of_str (addr_str : string) : option Z :=
  if contains "/" addr_str then None else v4_int_from_string addr_str.

Definition _parse_hextet (hextet_str : string) : option Z :=
  if negb (all_chars is_hex hextet_str) then None
  else if (4 <? String.length hextet_str)%nat then None
  else if String.eqb hextet_str "" then None   (* int('', 16) raises *)
  else Some (int_of 16 hextet_str).

Definition hex_char (d : Z) : ascii :=
  if d <? 10 then ascii_of_N (Z.to_N (d + 48)) else ascii_of_N (Z.to_N (d + 87)).

Fixpoint hex_digits (fuel : nat) (n : Z) (acc : string) : string :=
  match fuel with
  | O => acc
  | S fuel' =>
      let acc' := String (hex_char (n mod 16)) acc in
      if n / 16 =? 0 then acc' else hex_digits fuel' (n / 16) acc'
  end.

(** ['%x' % n] for [0 <= n < 2^16]. *)
Definition format_x (n : Z) : string := hex_digits 4 n "".

(** Indices [i] in [range(start, start + length l - 1)] with [l[i - start]]
    empty, for the ['::'] search. *)
Fixpoint empty_parts (start : nat) (l : list string) : list nat :=
  match l with
  | [] => []
  | [_] => []
  | p :: l' =>
      if String.eqb p "" then start :: empty_parts (S start) l'
      else empty_parts (S start) l'
  end.

Definition parse_hextets (acc : Z) (l : list string) : option Z :=
  fold_left (fun acc p => a ← acc; h ← _parse_hextet p;
                          Some (Z.lor (Z.shiftl a 16) h))
            l (Some acc).

Definition _HEXTET_COUNT : Z := 8.

Definition v6_int_from_string (ip_str : string) : option Z :=
  if String.eqb ip_str "" then None
  else
    let parts := split ":" ip_str in
    if (length parts <? 3)%nat then None
    else
      (* an IPv4-style suffix is converted to two hextets *)
      parts ← (if contains "." (List.last parts "")
               then ipv4_int ← IPv4Address_of_str (List.last parts "");
                    Some (removelast parts
                            ++ [format_x (Z.land (Z.shiftr ipv4_int 16) 65535);
                                format_x (Z.land ipv4_int 65535)])%list
               else Some parts);
      let len := Z.of_nat (length parts) in
      if _HEXTET_COUNT + 1 <? len then None
      else
        let first_empty := String.eqb (List.hd "" parts) "" in
        let last_empty := String.eqb (List.last parts "") "" in
        '(parts_hi, parts_lo, parts_skipped) ←
          match empty_parts 1 (List.tl parts) with
          | _ :: _ :: _ => None            (* more than one '::' *)
          | [skip_index] =>
              let parts_hi := Z.of_nat skip_index in
              let parts_lo := len - Z.of_nat skip_index - 1 in
              parts_hi ← (if first_empty
                          then if parts_hi - 1 =? 0 then Some (parts_hi - 1) else None
                          else Some parts_hi);
              parts_lo ← (if last_empty
                          then if parts_lo - 1 =? 0 then Some (parts_lo - 1) else None
                          else Some parts_lo);
              let parts_skipped := _HEXTET_COUNT - (parts_hi + parts_lo) in
              if parts_skipped <? 1 then None
              else Some (parts_hi, parts_lo, parts_skipped)
          | [] =>
              if negb (len =? _HEXTET_COUNT) then None
              else if first_empty then None
              else if last_empty then None
              else Some (len, 0, 0)
          end;
        ip_int ← parse_hextets 0 (take (Z.to_nat parts_hi) parts);
        parse_hextets (Z.shiftl ip_int (16 * parts_skipped))
                      (drop (Z.to_nat (len - parts_lo)) parts).

(** [_split_scope_id]: the address text, when the scope id is well formed. *)
Definition _split_scope_id (ip_str : string) : option string :=
  let '(addr, sep, scope_id) := partition "%" ip_str in
  if negb sep then Some addr
  else if String.eqb scope_id "" || contains "%" scope_id then None
  else Some addr.

Definition IPv6Address_of_str (addr_str : string) : option Z :=
  if contains "/" addr_str then None
  else addr ← _split_scope_id addr_str; v6_int_from_string addr.

(** [ipaddress.ip_address(address)]; [None] stands for [ValueError]. *)
Definition ip_address (address : string) : option Address :=
  match IPv4Address_of_str address with
  | Some n => Some (IPv4Address n)
  | None =>
      match IPv6Address_of_str address with
      | Some n => Some (IPv6Address n)
      | None => None
      end
  end.

(** A network: its address and its netmask, both as integers. *)
Record Network : Type := { network_address : Z; netmask : Z }.

Definition _ip_int_from_prefix (all_ones prefixlen : Z) : Z :=
  Z.lxor all_ones (Z.shiftr all_ones prefixlen).

Definition IPv4Network (addr : string) (prefixlen : Z) : Network :=
  {| network_address := default 0 (IPv4Address_of_str addr);
     netmask := _ip_int_from_prefix (2 ^ 32 - 1) prefixlen |}.

Definition IPv6Network (addr : string) (prefixlen : Z) : Network :=
  {| network_address := default 0 (IPv6Address_of_str addr);
     netmask := _ip_int_from_prefix (2 ^ 128 - 1) prefixlen |}.

(** [_BaseNetwork.__contains__] for an address of the network's version. *)
Definition net_contains (net : Network) (ip : Z) : bool :=
  Z.land ip (netmask net) =? network_address net.

Module V4.
Definition _linklocal_network := Eval vm_compute in IPv4Network "169.254.0.0" 16.
Definition _loopback_network := Eval vm_compute in IPv4Network "127.0.0.0" 8.
Definition _multicast_network := Eval vm_compute in IPv4Network "224.0.0.0" 4.
Definition _private_networks := Eval vm_compute in
  [ IPv4Network "0.0.0.0" 8; IPv4Network "10.0.0.0" 8;
    IPv4Network "127.0.0.0" 8; IPv4Network "169.254.0.0" 16;
    IPv4Network "172.16.0.0" 12; IPv4Network "192.0.0.0" 24;
    IPv4Network "192.0.0.170" 31; IPv4Network "192.0.2.0" 24;
    IPv4Network "192.168.0.0" 16; IPv4Network "198.18.0.0" 15;
    IPv4Network "198.51.100.0" 24; IPv4Network "203.0.113.0" 24;
    IPv4Network "240.0.0.0" 4; IPv4Network "255.255.255.255" 32 ].
Definition _private_networks_exceptions := Eval vm_compute in
  [ IPv4Network "192.0.0.9" 32; IPv4Network "192.0.0.10" 32 ].
Definition _reserved_network := Eval vm_compute in IPv4Network "240.0.0.0" 4.
Definition _unspecified_address : Z := 0.
End V4.

Module V6.
Definition _linklocal_network := Eval vm_compute in IPv6Network "fe80::" 10.
Definition _multicast_network := Eval vm_compute in IPv6Network "ff00::" 8.
Definition _private_networks := Eval vm_compute in
  [ IPv6Network "::1" 128; IPv6Network "::" 128;
    IPv6Network "::ffff:0:0" 96; IPv6Network "64:ff9b:1::" 48;
    IPv6Network "100::" 64; IPv6Network "2001::" 23;
    IPv6Network "2001:db8::" 32; IPv6Network "2002::" 16;
    IPv6Network "fc00::" 7; IPv6Network "fe80::" 10 ].
Definition _private_networks_exceptions := Eval vm_compute in
  [ IPv6Network "2001:1::1" 128; IPv6Network "2001:1::2" 128;
    IPv6Network "2001:3::" 32; IPv6Network "2001:4:112::" 48;
    IPv6Network "2001:20::" 28; IPv6Network "2001:30::" 28 ].
Definition _reserved_networks := Eval vm_compute in
  [ IPv6Network "::" 8; IPv6Network "100::" 8;
    IPv6Network "200::" 7; IPv6Network "400::" 6;
    IPv6Network "800::" 5; IPv6Network "1000::" 4;
    IPv6Network "4000::" 3; IPv6Network "6000::" 3;
    IPv6Network "8000::" 3; IPv6Network "A000::" 3;
    IPv6Network "C000::" 3; IPv6Network "E000::" 4;
    IPv6Network "F000::" 5; IPv6Network "F800::" 6;
    IPv6Network "FE00::" 9 ].
End V6.

Definition any_net (nets : list Network) (ip : Z) : bool :=
  existsb (fun net => net_contains net ip) nets.

Definition no_net (nets : list Network) (ip : Z) : bool :=
  forallb (fun net => negb (net_contains net ip)) nets.

Definition v4_is_private (ip : Z) : bool :=
  any_net V4._private_networks ip && no_net V4._private_networks_exceptions ip.

(** [IPv6Address.ipv4_mapped]. *)
Definition ipv4_mapped (ip : Z) : option Z :=
  if negb (Z.shiftr ip 32 =? 65535) then None
  else Some (Z.land ip 4294967295).

Definition is_private (a : Address) : bool :=
  match a with
  | IPv4Address ip => v4_is_private ip
  | IPv6Address ip =>
      match ipv4_mapped ip with
      | Some ip4 => v4_is_private ip4
      | None => any_net V6._private_networks ip
                && no_net V6._private_networks_exceptions ip
      end
  end.

Definition is_loopback (a : Address) : bool :=
  match a with
  | IPv4Address ip => net_contains V4._loopback_network ip
  | IPv6Address ip => ip =? 1
  end.

Definition is_reserved (a : Address) : bool :=
  match a with
  | IPv4Address ip => net_contains V4._reserved_network ip
  | IPv6Address ip => any_net V6._reserved_networks ip
  end.

Definition is_link_local (a : Address) : bool :=
  match a with
  | IPv4Address ip => net_contains V4._linklocal_network ip
  | IPv6Address ip => net_contains V6._linklocal_network ip
  end.

Definition is_multicast (a : Address) : bool :=
  match a with
  | IPv4Address ip => net_contains V4._multicast_network ip
  | IPv6Address ip => net_contains V6._multicast_network ip
  end.

Definition is_unspecified (a : Address) : bool :=
  match a with
  | IPv4Address ip => ip =? V4._unspecified_address
  | IPv6Address ip => ip =? 0
  end.

End ipaddress.

(** ** [urllib.parse]: the scheme, network location and host name of a URL *)

Module urllib_parse.
Import PyStr.

(** The two components of a parse result that the guard reads; the
    path, parameters, query and fragment are never consulted. *)
Record ParseResult : Type := { scheme : string; netloc : string }.

Definition is_scheme_char (c : ascii) : bool :=
  is_alpha c || is_digit c || contains c "+-.".

Definition is_netloc_delim (c : ascii) : bool := contains c "/?#".

(** [_splitnetloc(url, 2)] for a [url] that starts with two slashes:
    the domain part, up to the first of [/], [?] and [#]. *)
Definition _splitnetloc (after_slashes : string) : string :=
  fst (break is_netloc_delim after_slashes).

(** The pattern [\Av[a-fA-F0-9]+\..+\Z] of an IPvFuture literal. *)
Definition is_ipvfuture_tail (after_v : string) : bool :=
  let '(hexrun, rest) := break (fun c => negb (is_hex c)) after_v in
  match hexrun, rest with
  | String _ _, String "." (String c more) =>
      all_chars (fun c => negb (Ascii.eqb c "010")) (String c more)
  | _, _ => false
  end.

(** [_check_bracketed_host]: [true] when no [ValueError] is raised. *)
Definition _check_bracketed_host (hostname : string) : bool :=
  match hostname with
  | String "v" after_v => is_ipvfuture_tail after_v
  | _ =>
      match ipaddress.ip_address hostname with
      | Some (ipaddress.IPv6Address _) => true
      | _ => false
      end
  end.

Definition _check_bracketed_netloc (netloc : string) : bool :=
  let '(_, _, hostname_and_port) := rpartition "@" netloc in
  let '(before_bracket, have_open_br, bracketed) :=
    partition "[" hostname_and_port in
  if have_open_br then
    if negb (String.eqb before_bracket "") then false
    else
      let '(hostname, _, port) := partition "]" bracketed in
      match port with
      | String c _ =>
          if negb (Ascii.eqb c ":") then false
          else _check_bracketed_host hostname
      | EmptyString => _check_bracketed_host hostname
      end
  else
    let '(hostname, _, _) := partition ":" hostname_and_port in
    _check_bracketed_host hostname.

(** [urlsplit(url)], restricted to the scheme and the network location;
    [None] stands for [ValueError]. *)
Definition urlsplit (url : string) : option ParseResult :=
  let url := lstrip is_c0_or_space url in
  let url := remove is_unsafe_url_byte url in
  let '(scheme, url) :=
    match partition ":" url with
    | (String c0 pre, true, rest) =>
        if is_alpha c0 && all_chars is_scheme_char (String c0 pre)
        then (lower (String c0 pre), rest)
        else ("", url)
    | _ => ("", url)
    end in
  match url with
  | String "/" (String "/" after_slashes) =>
      let netloc := _splitnetloc after_slashes in
      let open_br := contains "[" netloc in
      let close_br := contains "]" netloc in
      if (open_br && negb close_br) || (close_br && negb open_br) then None
      else if open_br && close_br && negb (_check_bracketed_netloc netloc)
           then None
           else Some {| scheme := scheme; netloc := netloc |}
  | _ => Some {| scheme := scheme; netloc := "" |}
  end.

(** [urlparse] splits the path further; scheme and netloc are those of
    [urlsplit]. *)
Definition urlparse (url : string) : option ParseResult := urlsplit url.

(** The [_hostinfo] property, first component. *)
Definition _hostinfo (netloc : string) : string :=
  let '(_, _, hostinfo) := rpartition "@" netloc in
  let '(_, have_open_br, bracketed) := partition "[" hostinfo in
  if have_open_br
  then let '(hostname, _, _) := partition "]" bracketed in hostname
  else let '(hostname, _, _) := partition ":" hostinfo in hostname.

(** The [hostname] property: [None] when the host part is empty,
    otherwise the host in lower case, a zone id left as it is. *)
Definition hostname (p : ParseResult) : option string :=
  let h := _hostinfo (netloc p) in
  if String.eqb h "" then None
  else
    let '(host, percent, zone) := partition "%" h in
    Some (lower host ++ (if percent then "%" else "") ++ zone).

End urllib_parse.

(** ** The address classifier *)

Import ipaddress.

Definition _is_public_ip (ip : Address) : bool :=
  negb (is_private ip
        || is_loopback ip
        || is_reserved ip
        || is_link_local ip
        || is_multicast ip
        || is_unspecified ip).

(** ** The environment: DNS and the HTTP client *)

(** What has been asked of the outside world so far, most recent call
    first: the host names handed to [socket.getaddrinfo] and the URLs
    handed to [session.get]. *)
Record Trace : Type := { dns_log : list string; http_log : list string }.

Definition no_calls : Trace := {| dns_log := []; http_log := [] |}.

(** The outcome of [socket.getaddrinfo(hostname, None, proto=IPPROTO_TCP)]:
    [socket.gaierror] with its text, or the [sockaddr[0]] texts of the
    entries in the order returned. *)
Inductive AddrInfo : Type :=
| gaierror (e : string)
| addr_info (ip_texts : list string).

Module requests.

(** Whether a URL has a host name for [urlparse]. *)
Definition has_host (url : string) : bool :=
  match urllib_parse.urlparse url with
  | Some parsed =>
      match urllib_parse.hostname parsed with
      | Some _ => true
      | None => false
      end
  | None => false
  end.

(** The attributes of a response that [fetch_page] reads.  [requests]
    sends a request only to a URL with a host (it raises [MissingSchema]
    or [InvalidURL] when it prepares any other), and [response.url] is
    the URL of the request that was sent: it has a host name. *)
Record Response : Type := {
  url : string;
  status_code : Z;
  text : string;
  headers : list (string * string);
  url_has_host : has_host url = true
}.

(** [response.headers.get(name)]: header names compare without case. *)
Fixpoint headers_get (name : string) (hs : list (string * string)) : option string :=
  match hs with
  | [] => None
  | (k, v) :: hs' =>
      if String.eqb (PyStr.lower k) (PyStr.lower name) then Some v
      else headers_get name hs'
  end.

(** The status codes of a redirect: moved, found, other, temporary
    redirect, permanent redirect. *)
Definition REDIRECT_STATI : list Z := [301; 302; 303; 307; 308].

(** The property [Response.is_redirect]:
    ["location" in self.headers and self.status_code in REDIRECT_STATI]. *)
Definition is_redirect (r : Response) : bool :=
  match headers_get "location" (headers r) with
  | Some _ => true
  | None => false
  end
  && existsb (Z.eqb (status_code r)) REDIRECT_STATI.

(** The classes of [requests.exceptions]. *)
Inductive ExceptionClass : Type :=
| RequestException_
| InvalidJSONError
| JSONDecodeError
| HTTPError
| ConnectionError
| ProxyError
| SSLError
| Timeout
| ConnectTimeout
| ReadTimeout
| URLRequired
| TooManyRedirects
| MissingSchema
| InvalidSchema
| InvalidURL
| InvalidHeader
| InvalidProxyURL
| ChunkedEncodingError
| ContentDecodingError
| StreamConsumedError
| RetryError
| UnrewindableBodyError.

#[global] Instance ExceptionClass_eq_dec : EqDecision ExceptionClass.
Proof. solve_decision. Defined.

(** The base classes of each class inside [requests.exceptions];
    [RequestException_] is [RequestException], the root. *)
Definition bases (c : ExceptionClass) : list ExceptionClass :=
  match c with
  | RequestException_ => []
  | JSONDecodeError => [InvalidJSONError]
  | ProxyError | SSLError => [ConnectionError]
  | ConnectTimeout => [ConnectionError; Timeout]
  | ReadTimeout => [Timeout]
  | InvalidProxyURL => [InvalidURL]
  | _ => [RequestException_]
  end.

(** [issubclass(c, d)]; no class is more than three steps from the root. *)
Fixpoint issubclass_within (depth : nat) (c d : ExceptionClass) : bool :=
  bool_decide (c = d)
  || match depth with
     | O => false
     | S depth' => existsb (fun b => issubclass_within depth' b d) (bases c)
     end.

Definition issubclass (c d : ExceptionClass) : bool := issubclass_within 3 c d.

(** An exception raised by [session.get]: its class and its text [str(e)]. *)
Record RequestException : Type := {
  exception_class : ExceptionClass;
  str : string
}.

(** [isinstance(e, c)], the test of [except c]. *)
Definition isinstance (e : RequestException) (c : ExceptionClass) : bool :=
  issubclass (exception_class e) c.

End requests.

Inductive exn : Type :=
| ValueError
| RequestsError (e : requests.RequestException).

Inductive outcome (A : Type) : Type :=
| Return (a : A)
| Raise (e : exn).
Arguments Return {A} a.
Arguments Raise {A} e.

(** Computations that talk to the environment and may raise. *)
Definition M (A : Type) : Type := Trace -> outcome A * Trace.

#[global] Instance M_ret : MRet M := fun A a t => (Return a, t).

#[global] Instance M_bind : MBind M := fun A B f m t =>
  match m t with
  | (Return a, t') => f a t'
  | (Raise e, t') => (Raise e, t')
  end.

Definition raise {A : Type} (e : exn) : M A := fun t => (Raise e, t).

(** A standard-library call that raises [ValueError] on [None]. *)
Definition or_ValueError {A : Type} (o : option A) : M A :=
  match o with
  | Some a => mret a
  | None => raise ValueError
  end.

(** [try: body  except requests.exceptions...: handler]. *)
Definition try_except {A : Type} (body : M A)
    (handler : requests.RequestException -> M A) : M A := fun t =>
  match body t with
  | (Raise (RequestsError e), t') => handler e t'
  | r => r
  end.

(** Python's [x in (a, b, ...)] on strings. *)
Definition str_in (x : string) (l : list string) : bool :=
  existsb (String.eqb x) l.

Section Guard.

(** The answers of the resolver and of the HTTP client may depend on
    everything that was asked before. *)
Variable getaddrinfo : Trace -> string -> AddrInfo.
Variable session_get : Trace -> string -> requests.RequestException + requests.Response.

(** [urllib.parse.urljoin(base, url)]; [None] stands for [ValueError]. *)
Variable urljoin : string -> string -> option string.

(** [socket.getaddrinfo(hostname, None, proto=socket.IPPROTO_TCP)].  The
    call answers or fails with [socket.gaierror], which the guard
    catches.  A call that ends in an exception of another class (the
    [UnicodeError] of a host name that cannot be encoded) is caught
    nowhere in the guard and ends the run; such runs have no place here,
    and what is proved below about the value that a function returns is
    proved of the runs in which the resolver answers or fails with
    [socket.gaierror]. *)
Definition socket_getaddrinfo (hostname : string) : M AddrInfo := fun t =>
  (Return (getaddrinfo t hostname),
   {| dns_log := hostname :: dns_log t; http_log := http_log t |}).

Definition session_get_ (url : string) : M requests.Response := fun t =>
  let t' := {| dns_log := dns_log t; http_log := url :: http_log t |} in
  match session_get t url with
  | inl e => (Raise (RequestsError e), t')
  | inr response => (Return response, t')
  end.

(** *** [_is_public_host] *)

(** The [for] loop over [addr_info], with its [seen_ips] set. *)
Fixpoint check_addr_info (hostname : string) (ip_texts : list string)
    (seen_ips : gset string) : bool * string :=
  match ip_texts with
  | [] => (true, "")
  | ip_text :: rest =>
      if decide (ip_text ∈ seen_ips) then check_addr_info hostname rest seen_ips
      else
        let seen_ips := {[ip_text]} ∪ seen_ips in
        match ip_address ip_text with
        | None =>
            (false, "Invalid resolved IP for " +:+ hostname +:+ ": " +:+ ip_text)
        | Some ip =>
            if negb (_is_public_ip ip)
            then (false, "Blocked non-public IP for " +:+ hostname +:+ ": " +:+ ip_text)
            else check_addr_info hostname rest seen_ips
        end
  end.

Definition _is_public_host (hostname : string) : M (bool * string) :=
  if String.eqb hostname "" then mret (false, "Missing hostname")
  else
    match ip_address hostname with
    | Some ip =>
        if negb (_is_public_ip ip)
        then mret (false, "Blocked non-public IP: " +:+ hostname)
        else mret (true, "")
    | None =>
        r ← socket_getaddrinfo hostname;
        match r with
        | gaierror e =>
            mret (false, "DNS resolution failed for " +:+ hostname +:+ ": " +:+ e)
        | addr_info ip_texts => mret (check_addr_info hostname ip_texts ∅)
        end
    end.

(** *** [_validate_url] *)

Import urllib_parse.

(** The pair [(url, None)] is [inl url]; the pair [(None, reason)] is
    [inr reason]. *)
Definition _validate_url (raw_url : string) : M (string + string) :=
  let url := PyStr.strip raw_url in
  parsed ← or_ValueError (urlparse url);
  '(url, parsed) ←
    (if String.eqb (scheme parsed) ""
     then let url := "https://" +:+ url in
          parsed ← or_ValueError (urlparse url); mret (url, parsed)
     else mret (url, parsed));
  if negb (str_in (scheme parsed) ["http"; "https"])
  then mret (inr ("Invalid URL scheme: " +:+ scheme parsed))
  else
    match hostname parsed with
    | None => mret (inr "Invalid URL: missing hostname")
    | Some h =>
        '(is_public, reason) ← _is_public_host h;
        if negb is_public then mret (inr reason) else mret (inl url)
    end.

(** *** The route guard of the browser scripts *)

Inductive RouteAction : Type := continue_ | abort.

Definition route_handler (req_url : string)
    (host_cache : gmap string (bool * string))
    : M (RouteAction * gmap string (bool * string)) :=
  parsed_req ← or_ValueError (urlparse req_url);
  if str_in (scheme parsed_req) ["data"; "blob"; "about"]
  then mret (continue_, host_cache)
  else
    match hostname parsed_req with
    | Some h =>
        if negb (str_in (scheme parsed_req) ["http"; "https"])
        then mret (abort, host_cache)
        else
          '(cached, host_cache) ←
            match host_cache !! h with
            | Some cached => mret (cached, host_cache)
            | None =>
                cached ← _is_public_host h;
                mret (cached, <[h := cached]> host_cache)
            end;
          if negb (fst cached) then mret (abort, host_cache)
          else mret (continue_, host_cache)
    | None => mret (abort, host_cache)
    end.

(** One browser session: the requests of the page (and of the later
    pages that are given the same cache), handled in turn. *)
Fixpoint handle_requests (req_urls : list string)
    (host_cache : gmap string (bool * string))
    : M (list RouteAction * gmap string (bool * string)) :=
  match req_urls with
  | [] => mret ([], host_cache)
  | req_url :: rest =>
      '(action, host_cache) ← route_handler req_url host_cache;
      '(actions, host_cache) ← handle_requests rest host_cache;
      mret (action :: actions, host_cache)
  end.

Definition _validate_final_page_url (page_url : string) : M (bool * string) :=
  parsed ← or_ValueError (urlparse page_url);
  match hostname parsed with
  | Some h =>
      if negb (str_in (scheme parsed) ["http"; "https"])
      then mret (false, "Blocked final URL: " +:+ page_url)
      else
        '(is_public, reason) ← _is_public_host h;
        if negb is_public then mret (false, "Blocked final URL: " +:+ reason)
        else mret (true, "")
  | None => mret (false, "Blocked final URL: " +:+ page_url)
  end.

(** *** The host checks around one page *)



(** *** [fetch_page] *)

(** The [result] dictionary. *)
Record FetchResult : Type := {
  url : string;
  status_code : option Z;
  content : option string;
  headers : list (string * string);
  redirect_chain : list string;
  error : option string
}.

Definition set_error (result : FetchResult) (e : string) : FetchResult :=
  {| url := url result; status_code := status_code result;
     content := content result; headers := headers result;
     redirect_chain := redirect_chain result; error := Some e |}.

Definition set_response (result : FetchResult) (response : requests.Response)
    (redirect_chain : list string) : FetchResult :=
  {| url := requests.url response;
     status_code := Some (requests.status_code response);
     content := Some (requests.text response);
     headers := requests.headers response;
     redirect_chain := redirect_chain;
     error := error result |}.

Section fetch.

Variable timeout : Z.
Variable follow_redirects : bool.
Variable max_redirects : Z.
Variable result : FetchResult.

(** The body of [for _ in range(max_redirects + 1)], with the
    statements after the loop at [O]. *)
Fixpoint redirect_loop (iterations : nat) (current_url : string)
    (redirect_chain : list string) : M FetchResult :=
  match iterations with
  | O => mret (set_error result
                 ("Too many redirects (max " +:+ pretty max_redirects +:+ ")"))
  | S iterations' =>
      response ← session_get_ current_url;
      if negb follow_redirects || negb (requests.is_redirect response) then
        parsed_final ← or_ValueError (urlparse (requests.url response));
        match hostname parsed_final with
        | Some h =>
            '(is_public, reason) ← _is_public_host h;
            if negb is_public
            then mret (set_error result ("Blocked final URL: " +:+ reason))
            else mret (set_response result response redirect_chain)
        | None => mret (set_response result response redirect_chain)
        end
      else
        match requests.headers_get "Location" (requests.headers response) with
        | None | Some "" =>
            mret (set_error result "Redirect response missing Location header")
        | Some location =>
            next_url ← or_ValueError (urljoin current_url location);
            parsed_next ← or_ValueError (urlparse next_url);
            match hostname parsed_next with
            | Some h =>
                if negb (str_in (scheme parsed_next) ["http"; "https"])
                then mret (set_error result ("Blocked redirect target: " +:+ next_url))
                else
                  '(is_public, reason) ← _is_public_host h;
                  if negb is_public
                  then mret (set_error result ("Blocked redirect target: " +:+ reason))
                  else redirect_loop iterations' next_url
                         (redirect_chain ++ [next_url])%list
            | None =>
                mret (set_error result ("Blocked redirect target: " +:+ next_url))
            end
        end
  end.

Definition except_requests (e : requests.RequestException) : M FetchResult :=
  mret (set_error result
          (if requests.isinstance e requests.Timeout
           then "Request timed out after " +:+ pretty timeout +:+ " seconds"
           else if requests.isinstance e requests.TooManyRedirects
           then "Too many redirects (max " +:+ pretty max_redirects +:+ ")"
           else if requests.isinstance e requests.SSLError
           then "SSL error: " +:+ requests.str e
           else if requests.isinstance e requests.ConnectionError
           then "Connection error: " +:+ requests.str e
           else "Request failed: " +:+ requests.str e)).

End fetch.

Definition fetch_page (url : string) (timeout : Z) (follow_redirects : bool)
    (max_redirects : Z) : M FetchResult :=
  let result := {| url := url; status_code := None; content := None;
                   headers := []; redirect_chain := []; error := None |} in
  validated ← _validate_url url;
  match validated with
  | inr validation_error => mret (set_error result validation_error)
  | inl validated_url =>
      try_except
        (redirect_loop follow_redirects max_redirects result
           (Z.to_nat (max_redirects + 1)) validated_url [])
        (except_requests timeout max_redirects result)
  end.

End Guard.

(** ** [grade_landing] and the LCP label of [analyze_landing.py] *)

Module analyze_landing.

(** The entries of the [result] dictionary of [analyze_landing] that
    [grade_landing] and the LCP line of [main] read, under the names of
    their keys; the other entries play no part in the grades. *)
Record Performance : Type := { lcp_ms : option Z }.

Record Content : Type := { h1 : option string }.

Record Conversion : Type := {
  cta_above_fold : bool;
  form_present : bool;
  form_fields : Z
}.

Record Mobile : Type := { viewport_meta : bool; horizontal_scroll : bool }.

Record Schema : Type := {
  product_schema : bool;
  faq_schema : bool;
  service_schema : bool
}.

Record Result : Type := {
  performance : Performance;
  content : Content;
  conversion : Conversion;
  mobile : Mobile;
  schema : Schema
}.

(** Truth value of an optional integer and of an optional text. *)
Definition truthy_int (x : option Z) : bool :=
  match x with
  | Some n => negb (n =? 0)
  | None => false
  end.

Definition truthy_str (x : option string) : bool :=
  match x with
  | Some s => negb (String.eqb s "")
  | None => false
  end.

Definition grade_landing (result : Result) : gmap string string :=
  let grades : gmap string string := ∅ in
  let lcp := lcp_ms (performance result) in
  let grades :=
    match lcp with
    | Some lcp_value =>
        if truthy_int lcp then
          if lcp_value <? 2500 then <["G59_mobile_speed" := "PASS"]> grades
          else if lcp_value <? 4000 then <["G59_mobile_speed" := "WARNING"]> grades
          else <["G59_mobile_speed" := "FAIL"]> grades
        else grades
    | None => grades
    end in
  let grades :=
    <["G60_relevance" := if truthy_str (h1 (content result)) then "PASS" else "FAIL"]>
      grades in
  let has_relevant_schema :=
    product_schema (schema result)
    || faq_schema (schema result)
    || service_schema (schema result) in
  let grades :=
    <["G61_schema" := if has_relevant_schema then "PASS" else "FAIL"]> grades in
  let grades :=
    <["cta_above_fold" := if cta_above_fold (conversion result) then "PASS" else "FAIL"]>
      grades in
  let has_viewport := viewport_meta (mobile result) in
  let no_scroll := negb (horizontal_scroll (mobile result)) in
  let grades :=
    <["mobile_responsive" := if has_viewport && no_scroll then "PASS" else "FAIL"]>
      grades in
  if form_present (conversion result) then
    let fields := form_fields (conversion result) in
    if fields <=? 5 then <["form_friction" := "PASS"]> grades
    else if fields <=? 8 then <["form_friction" := "WARNING"]> grades
    else <["form_friction" := "FAIL"]> grades
  else grades.

(** The label that [main] prints beside the LCP value. *)
Definition lcp_status (lcp : option Z) : string :=
  match lcp with
  | Some lcp_value =>
      if truthy_int lcp && (lcp_value <? 2500) then "GOOD"
      else if truthy_int lcp then "SLOW" else "N/A"
  | None => "N/A"
  end.

End analyze_landing.

(** ** The file name of a screenshot, from [main] of [capture_screenshot.py] *)

Module capture_screenshot.

(** The keys of [VIEWPORTS], in the SEO script and in the ads script. *)
Definition VIEWPORTS_keys : list string := ["desktop"; "laptop"; "tablet"; "mobile"].

Definition VIEWPORTS_keys_ads : list string := ["desktop"; "tablet"; "mobile"].



End capture_screenshot.

(** * The vocabulary of the properties *)

(** The ranges that the RFCs set aside, by class: private (RFC 1918 and
    the IPv6 unique-local block), loopback, link-local, multicast,
    reserved (the former class E) and the unspecified address. *)
Definition documented_v4 : list Network := Eval vm_compute in
  [ IPv4Network "10.0.0.0" 8; IPv4Network "172.16.0.0" 12;
    IPv4Network "192.168.0.0" 16; IPv4Network "127.0.0.0" 8;
    IPv4Network "169.254.0.0" 16; IPv4Network "224.0.0.0" 4;
    IPv4Network "240.0.0.0" 4; IPv4Network "0.0.0.0" 32 ].

Definition documented_v6 : list Network := Eval vm_compute in
  [ IPv6Network "fc00::" 7; IPv6Network "::1" 128;
    IPv6Network "fe80::" 10; IPv6Network "ff00::" 8;
    IPv6Network "::" 128 ].

Definition documented_non_public (a : Address) : bool :=
  match a with
  | IPv4Address ip => any_net documented_v4 ip
  | IPv6Address ip => any_net documented_v6 ip
  end.

(** Boolean form of the side conditions of [net_contains_disjoint]. *)
Definition outside (coarse fine : Network) : bool :=
  (Z.land (netmask fine) (netmask coarse) =? netmask coarse)
  && negb (Z.land (network_address fine) (netmask coarse) =? network_address coarse).

(** A resolved address text is public when it parses and is classified
    public. *)
Definition resolved_public (ip_text : string) : bool :=
  match ip_address ip_text with
  | Some ip => _is_public_ip ip
  | None => false
  end.

(** The reason reported for an offending resolved address. *)
Definition offender_reason (hostname ip_text : string) : string :=
  match ip_address ip_text with
  | None => "Invalid resolved IP for " +:+ hostname +:+ ": " +:+ ip_text
  | Some _ => "Blocked non-public IP for " +:+ hostname +:+ ": " +:+ ip_text
  end.

(** The resolver of the design: a literal address resolves to itself,
    any other name to what DNS answers, [None] on a DNS failure. *)
Definition resolve (getaddrinfo : Trace -> string -> AddrInfo) (t : Trace)
    (hostname : string) : option (list string) :=
  match ip_address hostname with
  | Some _ => Some [hostname]
  | None =>
      match getaddrinfo t hostname with
      | addr_info ip_texts => Some ip_texts
      | gaierror _ => None
      end
  end.

(** Whether a run of the validator ended in [(True, _)]. *)
Definition allowed (run : outcome (bool * string) * Trace) : bool :=
  match fst run with
  | Return (is_public, _) => is_public
  | Raise _ => false
  end.

Definition after_dns (t : Trace) (hostname : string) : Trace :=
  {| dns_log := hostname :: dns_log t; http_log := http_log t |}.

Definition after_get (t : Trace) (url : string) : Trace :=
  {| dns_log := dns_log t; http_log := url :: http_log t |}.

(** The decision of the validator in a given state, and the state after. *)
Definition host_decision (getaddrinfo : Trace -> string -> AddrInfo)
    (hostname : string) (t : Trace) : bool * string :=
  match fst (_is_public_host getaddrinfo hostname t) with
  | Return cached => cached
  | Raise _ => (false, "")
  end.

Definition after_validation (getaddrinfo : Trace -> string -> AddrInfo)
    (hostname : string) (t : Trace) : Trace :=
  snd (_is_public_host getaddrinfo hostname t).

(** What the handler does with a cached tuple. *)
Definition action_of (cached : bool * string) : RouteAction :=
  if fst cached then continue_ else abort.


(** The host check at the end of [_validate_url], for the URL [url] as
    parsed into [parsed]. *)
Definition host_step (getaddrinfo : Trace -> string -> AddrInfo) (url : string)
    (parsed : urllib_parse.ParseResult) (t : Trace)
    : outcome (string + string) * Trace :=
  match urllib_parse.hostname parsed with
  | None => (Return (inr "Invalid URL: missing hostname"), t)
  | Some h =>
      (Return (if fst (host_decision getaddrinfo h t) then inl url
               else inr (snd (host_decision getaddrinfo h t))),
       after_validation getaddrinfo h t)
  end.

(** The [result] dictionary as [fetch_page] creates it. *)
Definition initial_result (url : string) : FetchResult :=
  {| url := url; status_code := None; content := None;
     headers := []; redirect_chain := []; error := None |}.

(** The result of a failed fetch and of a successful one, entry by entry. *)
Definition failure (url msg : string) : FetchResult :=
  {| url := url; status_code := None; content := None;
     headers := []; redirect_chain := []; error := Some msg |}.

Definition success (response : requests.Response) (redirect_chain : list string)
    : FetchResult :=
  {| url := requests.url response;
     status_code := Some (requests.status_code response);
     content := Some (requests.text response);
     headers := requests.headers response;
     redirect_chain := redirect_chain;
     error := None |}.

(** The state of a session of the route guard when [j] of its requests
    have been handled. *)
Definition session_state (getaddrinfo : Trace -> string -> AddrInfo)
    (req_urls : list string) (host_cache : gmap string (bool * string))
    (t : Trace) (j : nat) : Trace :=
  snd (handle_requests getaddrinfo (take j req_urls) host_cache t).

(** Every tuple of the cache is a decision that the validator made for
    its host name. *)
Definition cache_sound (getaddrinfo : Trace -> string -> AddrInfo)
    (host_cache : gmap string (bool * string)) : Prop :=
  forall h cached,
    host_cache !! h = Some cached ->
    exists t, cached = host_decision getaddrinfo h t.

(** The grades, from best to worst. *)
Definition grade_rank (grade : string) : nat :=
  if String.eqb grade "PASS" then 0
  else if String.eqb grade "WARNING" then 1
  else 2.

(** A result of [analyze_landing] with another LCP value, and with another
    number of form fields. *)
Definition with_lcp (result : analyze_landing.Result) (lcp : option Z)
    : analyze_landing.Result :=
  {| analyze_landing.performance := {| analyze_landing.lcp_ms := lcp |};
     analyze_landing.content := analyze_landing.content result;
     analyze_landing.conversion := analyze_landing.conversion result;
     analyze_landing.mobile := analyze_landing.mobile result;
     analyze_landing.schema := analyze_landing.schema result |}.

Definition with_form_fields (result : analyze_landing.Result) (fields : Z)
    : analyze_landing.Result :=
  {| analyze_landing.performance := analyze_landing.performance result;
     analyze_landing.content := analyze_landing.content result;
     analyze_landing.conversion :=
       {| analyze_landing.cta_above_fold :=
            analyze_landing.cta_above_fold (analyze_landing.conversion result);
          analyze_landing.form_present := true;
          analyze_landing.form_fields := fields |};
     analyze_landing.mobile := analyze_landing.mobile result;
     analyze_landing.schema := analyze_landing.schema result |}.

Section Chains.

Variable getaddrinfo : Trace -> string -> AddrInfo.
Variable session_get : Trace -> string -> requests.RequestException + requests.Response.
Variable urljoin : string -> string -> option string.

(** One hop of a redirect chain: in the state [t] the request for
    [current_url] is answered by a redirect whose [Location], joined to
    [current_url], is the [http] or [https] URL [next_url] of a host that
    the validator allows; [t'] is the state after that validation. *)
Inductive public_hop (t : Trace) (current_url next_url : string) (t' : Trace) : Prop :=
| public_hop_intro (response : requests.Response) (location : string)
    (parsed_next : urllib_parse.ParseResult) (h reason : string) :
    session_get t current_url = inr response ->
    requests.is_redirect response = true ->
    requests.headers_get "Location" (requests.headers response) = Some location ->
    location <> "" ->
    urljoin current_url location = Some next_url ->
    urllib_parse.urlparse next_url = Some parsed_next ->
    str_in (urllib_parse.scheme parsed_next) ["http"; "https"] = true ->
    urllib_parse.hostname parsed_next = Some h ->
    _is_public_host getaddrinfo h (after_get t current_url)
    = (Return (true, reason), t') ->
    public_hop t current_url next_url t'.

(** A chain of such hops from [current_url] to [last_url], with the URLs
    it goes through. *)
Inductive public_hops : Trace -> string -> list string -> string -> Trace -> Prop :=
| public_hops_nil (t : Trace) (current_url : string) :
    public_hops t current_url [] current_url t
| public_hops_cons (t : Trace) (current_url next_url : string) (t1 : Trace)
    (chain : list string) (last_url : string) (t2 : Trace) :
    public_hop t current_url next_url t1 ->
    public_hops t1 next_url chain last_url t2 ->
    public_hops t current_url (next_url :: chain) last_url t2.

(** The end of a chain: the request for [current_url] is answered by a
    response that is not a redirect and whose own URL has a host name that
    the validator allows. *)
Definition public_final (t : Trace) (current_url : string)
    (response : requests.Response) (t' : Trace) : Prop :=
  session_get t current_url = inr response
  /\ requests.is_redirect response = false
  /\ exists parsed_final h reason,
      urllib_parse.urlparse (requests.url response) = Some parsed_final
      /\ urllib_parse.hostname parsed_final = Some h
      /\ _is_public_host getaddrinfo h (after_get t current_url)
         = (Return (true, reason), t').

(** The requests of a run that starts in the state [t]: each URL is an
    [http] or [https] URL whose host name the validator allows in the
    state that the run has reached, and it is asked for in the state
    that this very validation leaves; [t'] is the state after the last
    request. *)
Inductive vetted_requests : Trace -> list string -> Trace -> Prop :=
| vetted_requests_nil (t : Trace) : vetted_requests t [] t
| vetted_requests_cons (t : Trace) (request_url : string)
    (parsed : urllib_parse.ParseResult) (h : string) (t1 : Trace)
    (urls : list string) (t' : Trace) :
    urllib_parse.urlparse request_url = Some parsed ->
    str_in (urllib_parse.scheme parsed) ["http"; "https"] = true ->
    urllib_parse.hostname parsed = Some h ->
    _is_public_host getaddrinfo h t = (Return (true, ""), t1) ->
    vetted_requests (after_get t1 request_url) urls t' ->
    vetted_requests t (request_url :: urls) t'.

End Chains.

(** * A concrete environment *)

(** A resolver that knows four names. *)
Definition mock_getaddrinfo (t : Trace) (hostname : string) : AddrInfo :=
  if String.eqb hostname "example.com" then addr_info ["93.184.216.34"]
  else if String.eqb hostname "cdn.example.com"
  then addr_info ["93.184.216.34"; "2606:2800:220:1:248:1893:25c8:1946"]
  else if String.eqb hostname "localhost" then addr_info ["127.0.0.1"]
  else if String.eqb hostname "mixed.example"
  then addr_info ["93.184.216.34"; "93.184.216.34"; "10.0.0.5"]
  else gaierror "[Errno -2] Name or service not known".

(** [urljoin] on the absolute [Location] values of the servers below. *)
Definition mock_urljoin (base location : string) : option string := Some location.

(** The responses of the servers below carry the URL that was asked. *)
Definition redirect_to (url location : string) (sent : requests.has_host url = true)
    : requests.Response :=
  {| requests.url := url; requests.status_code := 302; requests.text := "";
     requests.headers := [("Location", location)];
     requests.url_has_host := sent |}.

Definition page (url : string) (sent : requests.has_host url = true)
    : requests.Response :=
  {| requests.url := url; requests.status_code := 200;
     requests.text := "<html></html>";
     requests.headers := [("Content-Type", "text/html")];
     requests.url_has_host := sent |}.


(** What the servers below answer to a URL they do not know. *)
Definition connection_refused : requests.RequestException :=
  {| requests.exception_class := requests.ConnectionError;
     requests.str := "Connection refused" |}.

(** [/a] redirects to [/b], which is a page. *)
Definition server_one_hop (t : Trace) (url : string)
    : requests.RequestException + requests.Response :=
  if String.eqb url "https://example.com/a"
  then inr (redirect_to "https://example.com/a" "https://example.com/b" eq_refl)
  else if String.eqb url "https://example.com/b"
  then inr (page "https://example.com/b" eq_refl)
  else inl connection_refused.



(** A redirect status with an empty [Location] value. *)
Definition server_empty_location (t : Trace) (url : string)
    : requests.RequestException + requests.Response :=
  if String.eqb url "https://example.com/a"
  then inr (redirect_to "https://example.com/a" "" eq_refl)
  else inl connection_refused.


(** A resolver under the control of the owner of [rebind.example]: the
    first answer for that name is a public address, every later answer
    is the loopback address. *)
Definition rebinding_getaddrinfo (t : Trace) (hostname : string) : AddrInfo :=
  if String.eqb hostname "rebind.example"
  then if str_in hostname (dns_log t)
       then addr_info ["127.0.0.1"]
       else addr_info ["93.184.216.34"]
  else mock_getaddrinfo t hostname.

(** The page of [rebind.example]. *)
Definition server_rebind (t : Trace) (url : string)
    : requests.RequestException + requests.Response :=
  if String.eqb url "https://rebind.example/"
  then inr (page "https://rebind.example/" eq_refl)
  else inl connection_refused.

(** A landing page as [analyze_landing] may describe it: a heading, a
    call to action, a form of six fields, no schema markup. *)
Definition landing_sample : analyze_landing.Result :=
  {| analyze_landing.performance := {| analyze_landing.lcp_ms := Some 3100 |};
     analyze_landing.content := {| analyze_landing.h1 := Some "Spring sale" |};
     analyze_landing.conversion :=
       {| analyze_landing.cta_above_fold := true;
          analyze_landing.form_present := true;
          analyze_landing.form_fields := 6 |};
     analyze_landing.mobile :=
       {| analyze_landing.viewport_meta := true;
          analyze_landing.horizontal_scroll := false |};
     analyze_landing.schema :=
       {| analyze_landing.product_schema := false;
          analyze_landing.faq_schema := false;
          analyze_landing.service_schema := false |} |}.

(** [/a] redirects to [/b], and the connection for [/b] times out. *)
Definition server_timeout_after_hop (t : Trace) (url : string)
    : requests.RequestException + requests.Response :=
  if String.eqb url "https://example.com/a"
  then inr (redirect_to "https://example.com/a" "https://example.com/b" eq_refl)
  else inl {| requests.exception_class := requests.ConnectTimeout;
              requests.str := "HTTPSConnectionPool(host='example.com', port=443)" |}.

(** * Properties *)

(** ** The classifier *)

(** A network that lies outside a coarser one shares no address with it. *)
Lemma net_contains_disjoint (coarse fine : Network) (ip : Z) :
  Z.land (netmask fine) (netmask coarse) = netmask coarse ->
  Z.land (network_address fine) (netmask coarse) <> network_address coarse ->
  net_contains coarse ip = true ->
  net_contains fine ip = false.
Proof.
  unfold net_contains. intros Hmask Haddr Hin.
  apply Z.eqb_eq in Hin. apply Z.eqb_neq. intros Hfine.
  apply Haddr. rewrite <- Hfine, <- Z.land_assoc, Hmask. exact Hin.
Qed.

(** An address inside a network has the network's bits under the mask. *)
Lemma net_contains_bit (net : Network) (ip : Z) (i : Z) :
  net_contains net ip = true ->
  Z.testbit (netmask net) i = true ->
  Z.testbit ip i = Z.testbit (network_address net) i.
Proof.
  unfold net_contains. intros Hin Hbit. apply Z.eqb_eq in Hin.
  rewrite <- Hin, Z.land_spec, Hbit. now rewrite andb_true_r.
Qed.

Lemma is_public_ip_false_intro (ip : Address) :
  is_private ip || is_loopback ip || is_reserved ip
  || is_link_local ip || is_multicast ip || is_unspecified ip = true ->
  _is_public_ip ip = false.
Proof. unfold _is_public_ip. now intros ->. Qed.

(** A network inside a coarser one: its addresses are in the coarser one. *)
Lemma net_contains_weaken (coarse fine : Network) (ip : Z) :
  Z.land (netmask fine) (netmask coarse) = netmask coarse ->
  Z.land (network_address fine) (netmask coarse) = network_address coarse ->
  net_contains fine ip = true ->
  net_contains coarse ip = true.
Proof.
  unfold net_contains. intros Hmask Haddr Hin.
  apply Z.eqb_eq in Hin. apply Z.eqb_eq.
  rewrite <- Haddr, <- Hin, <- Z.land_assoc, Hmask. reflexivity.
Qed.

Lemma any_net_intro (net : Network) (nets : list Network) (ip : Z) :
  In net nets -> net_contains net ip = true -> any_net nets ip = true.
Proof.
  intros Hin Hc. unfold any_net. apply existsb_exists. exists net. auto.
Qed.

Lemma no_net_intro (coarse : Network) (nets : list Network) (ip : Z) :
  forallb (outside coarse) nets = true ->
  net_contains coarse ip = true ->
  no_net nets ip = true.
Proof.
  intros Hout Hc. unfold no_net. apply forallb_forall. intros fine Hin.
  rewrite forallb_forall in Hout. specialize (Hout fine Hin).
  unfold outside in Hout. apply andb_true_iff in Hout as [Hm Ha].
  apply Z.eqb_eq in Hm. apply negb_true_iff, Z.eqb_neq in Ha.
  now rewrite (net_contains_disjoint coarse fine ip Hm Ha Hc).
Qed.

(** An address with bit 127 set is not an IPv4-mapped one. *)
Lemma ipv4_mapped_high_bit (ip : Z) :
  Z.testbit ip 127 = true -> ipv4_mapped ip = None.
Proof.
  intros Hbit. unfold ipv4_mapped.
  destruct (Z.shiftr ip 32 =? 65535) eqn:E; [|reflexivity].
  apply Z.eqb_eq in E.
  assert (Hs : Z.testbit (Z.shiftr ip 32) 95 = true)
    by (rewrite Z.shiftr_spec by lia; exact Hbit).
  rewrite E in Hs. discriminate Hs.
Qed.

Ltac in_list := simpl; repeat (first [left; reflexivity | right]).

Lemma documented_v4_not_public (ip : Z) :
  any_net documented_v4 ip = true -> _is_public_ip (IPv4Address ip) = false.
Proof.
  intros H. apply is_public_ip_false_intro.
  unfold any_net, documented_v4 in H. simpl existsb in H.
  repeat (apply orb_prop in H as [H | H]); try discriminate H.
  - (* 10.0.0.0/8 *)
    assert (Hp : is_private (IPv4Address ip) = true).
    { simpl. unfold v4_is_private. apply andb_true_iff. split.
      + eapply any_net_intro; [|exact H]. in_list.
      + eapply no_net_intro; [|exact H]. reflexivity. }
    now rewrite Hp.
  - (* 172.16.0.0/12 *)
    assert (Hp : is_private (IPv4Address ip) = true).
    { simpl. unfold v4_is_private. apply andb_true_iff. split.
      + eapply any_net_intro; [|exact H]. in_list.
      + eapply no_net_intro; [|exact H]. reflexivity. }
    now rewrite Hp.
  - (* 192.168.0.0/16 *)
    assert (Hp : is_private (IPv4Address ip) = true).
    { simpl. unfold v4_is_private. apply andb_true_iff. split.
      + eapply any_net_intro; [|exact H]. in_list.
      + eapply no_net_intro; [|exact H]. reflexivity. }
    now rewrite Hp.
  - (* 127.0.0.0/8 *)
    assert (Hp : is_loopback (IPv4Address ip) = true) by exact H.
    rewrite Hp. now rewrite !orb_true_r.
  - (* 169.254.0.0/16 *)
    assert (Hp : is_link_local (IPv4Address ip) = true) by exact H.
    rewrite Hp. now rewrite !orb_true_r.
  - (* 224.0.0.0/4 *)
    assert (Hp : is_multicast (IPv4Address ip) = true) by exact H.
    rewrite Hp. now rewrite !orb_true_r.
  - (* 240.0.0.0/4 *)
    assert (Hp : is_reserved (IPv4Address ip) = true) by exact H.
    rewrite Hp. now rewrite !orb_true_r.
  - (* 0.0.0.0 *)
    assert (H8 : net_contains {| network_address := 0; netmask := 4278190080 |} ip = true).
    { eapply net_contains_weaken; [| |exact H]; reflexivity. }
    assert (Hp : is_private (IPv4Address ip) = true).
    { simpl. unfold v4_is_private. apply andb_true_iff. split.
      + eapply any_net_intro; [|exact H8]. in_list.
      + eapply no_net_intro; [|exact H8]. reflexivity. }
    now rewrite Hp.
Qed.

Lemma documented_v6_not_public (ip : Z) :
  any_net documented_v6 ip = true -> _is_public_ip (IPv6Address ip) = false.
Proof.
  intros H. apply is_public_ip_false_intro.
  unfold any_net, documented_v6 in H. simpl existsb in H.
  repeat (apply orb_prop in H as [H | H]); try discriminate H.
  - (* fc00::/7 *)
    assert (Hp : is_private (IPv6Address ip) = true).
    { cbn [is_private]. rewrite ipv4_mapped_high_bit.
      - apply andb_true_iff. split.
        + eapply any_net_intro; [|exact H]. in_list.
        + eapply no_net_intro; [|exact H]. reflexivity.
      - rewrite (net_contains_bit _ _ 127 H); reflexivity. }
    now rewrite Hp.
  - (* ::1 *)
    assert (Hp : is_reserved (IPv6Address ip) = true).
    { cbn [is_reserved]. eapply any_net_intro with (net := {| network_address := 0; netmask := _ |});
        [left; reflexivity|].
      eapply net_contains_weaken; [| |exact H]; reflexivity. }
    rewrite Hp. now rewrite !orb_true_r.
  - (* fe80::/10 *)
    assert (Hp : is_link_local (IPv6Address ip) = true) by exact H.
    rewrite Hp. now rewrite !orb_true_r.
  - (* ff00::/8 *)
    assert (Hp : is_multicast (IPv6Address ip) = true) by exact H.
    rewrite Hp. now rewrite !orb_true_r.
  - (* :: *)
    assert (Hp : is_reserved (IPv6Address ip) = true).
    { cbn [is_reserved]. eapply any_net_intro with (net := {| network_address := 0; netmask := _ |});
        [left; reflexivity|].
      eapply net_contains_weaken; [| |exact H]; reflexivity. }
    rewrite Hp. now rewrite !orb_true_r.
Qed.

(** C2.  [_is_public_ip] answers public exactly when the address is in
    none of the six classes private, loopback, reserved, link-local,
    multicast and unspecified; in particular an IPv4 or IPv6 address in one
    of the documented ranges of these classes is never public. *)
Theorem C2_public_iff_no_class :
  (forall ip : Address,
      _is_public_ip ip = true <->
      is_private ip = false /\ is_loopback ip = false /\
      is_reserved ip = false /\ is_link_local ip = false /\
      is_multicast ip = false /\ is_unspecified ip = false)
  /\ (forall ip : Address,
        documented_non_public ip = true -> _is_public_ip ip = false).
Proof.
  split.
  - intros ip. unfold _is_public_ip. rewrite negb_true_iff.
    rewrite !orb_false_iff. tauto.
  - intros [ip | ip] H.
    + now apply documented_v4_not_public.
    + now apply documented_v6_not_public.
Qed.

Lemma C2_witness :
  documented_non_public (IPv4Address 167772165) = true
  /\ _is_public_ip (IPv4Address 167772165) = false.
Proof.
  split; [reflexivity|].
  apply (proj2 C2_public_iff_no_class). reflexivity.
Defined.

(** ** The host validator *)

Lemma ip_address_empty : ip_address "" = None.
Proof. reflexivity. Qed.

(** The loop reports the first offender and skips what it has seen. *)
Lemma check_addr_info_first_offender (hostname : string) (ip_texts : list string) :
  forall seen_ips : gset string,
    (forall a, a ∈ seen_ips -> resolved_public a = true) ->
    check_addr_info hostname ip_texts seen_ips =
    match List.find (fun a => negb (resolved_public a)) ip_texts with
    | None => (true, "")
    | Some a => (false, offender_reason hostname a)
    end.
Proof.
  induction ip_texts as [|a rest IH]; intros seen Hseen; [reflexivity|].
  cbn [check_addr_info List.find].
  destruct (decide (a ∈ seen)) as [Hin | Hnotin].
  - rewrite (Hseen a Hin). cbn [negb]. now apply IH.
  - unfold resolved_public at 1, offender_reason.
    destruct (ip_address a) as [ip|] eqn:Hparse;
      [|cbn [negb]; now rewrite Hparse].
    destruct (_is_public_ip ip) eqn:Hpub; cbn [negb];
      [|now rewrite Hparse].
    apply IH. intros b Hb. apply elem_of_union in Hb as [Hb | Hb]; [|auto].
    apply elem_of_singleton in Hb. subst b.
    unfold resolved_public. now rewrite Hparse.
Qed.

Lemma find_offender_none (ip_texts : list string) :
  List.find (fun a => negb (resolved_public a)) ip_texts = None <->
  Forall (fun a => resolved_public a = true) ip_texts.
Proof.
  induction ip_texts as [|a rest IH]; cbn [List.find].
  - split; [constructor | reflexivity].
  - destruct (resolved_public a) eqn:E; cbn [negb].
    + rewrite IH. split; [now constructor | now inversion 1].
    + split; [discriminate | inversion 1; congruence].
Qed.

Lemma find_offender_some (ip_texts : list string) (a : string) :
  List.find (fun a => negb (resolved_public a)) ip_texts = Some a ->
  a ∈ ip_texts /\ resolved_public a = false.
Proof.
  intros H. apply find_some in H as [Hin Hneg].
  split; [now apply list_elem_of_In | now apply negb_true_iff].
Qed.

Lemma Forall_remove_dups (P : string -> Prop) (l : list string) :
  Forall P (remove_dups l) <-> Forall P l.
Proof.
  rewrite !list.Forall_forall. split; intros H a Ha; apply H.
  - apply elem_of_remove_dups. exact Ha.
  - rewrite elem_of_remove_dups in Ha. exact Ha.
Qed.

(** What [_is_public_host] returns, case by case. *)
Lemma is_public_host_cases (getaddrinfo : Trace -> string -> AddrInfo)
    (hostname : string) (t : Trace) :
  _is_public_host getaddrinfo hostname t =
  if String.eqb hostname "" then (Return (false, "Missing hostname"), t)
  else
    match ip_address hostname with
    | Some ip =>
        (Return (if _is_public_ip ip then (true, "")
                 else (false, "Blocked non-public IP: " +:+ hostname)), t)
    | None =>
        (Return
           match getaddrinfo t hostname with
           | gaierror e =>
               (false, "DNS resolution failed for " +:+ hostname +:+ ": " +:+ e)
           | addr_info ip_texts =>
               match List.find (fun a => negb (resolved_public a)) ip_texts with
               | None => (true, "")
               | Some a => (false, offender_reason hostname a)
               end
           end, after_dns t hostname)
    end.
Proof.
  unfold _is_public_host.
  destruct (String.eqb hostname ""); [reflexivity|].
  destruct (ip_address hostname) as [ip|].
  - now destruct (_is_public_ip ip).
  - unfold mbind, M_bind, socket_getaddrinfo, mret, M_ret, after_dns.
    destruct (getaddrinfo t hostname) as [e | ip_texts]; [reflexivity|].
    rewrite check_addr_info_first_offender; [reflexivity|].
    intros a Ha. now apply not_elem_of_empty in Ha.
Qed.

Lemma allowed_iff_resolved_public (getaddrinfo : Trace -> string -> AddrInfo)
    (hostname : string) (t : Trace) :
  allowed (_is_public_host getaddrinfo hostname t) = true <->
  hostname <> "" /\
  exists addrs, resolve getaddrinfo t hostname = Some addrs
                /\ Forall (fun a => resolved_public a = true) (remove_dups addrs).
Proof.
  rewrite is_public_host_cases. unfold allowed, resolve.
  destruct (String.eqb_spec hostname "") as [-> | Hne]; cbn [fst].
  - split; [discriminate | now intros [[] _]].
  - destruct (ip_address hostname) as [ip|] eqn:Hparse; cbn [fst].
    + assert (Hrp : resolved_public hostname = _is_public_ip ip)
        by (unfold resolved_public; now rewrite Hparse).
      split.
      * intros Hpub. split; [exact Hne|]. exists [hostname]. split; [reflexivity|].
        apply (proj2 (Forall_remove_dups _ _)). constructor; [|constructor].
        rewrite Hrp. now destruct (_is_public_ip ip).
      * intros [_ (addrs & [= <-] & Hall)]. apply (proj1 (Forall_remove_dups _ _)) in Hall.
        inversion Hall as [|? ? Hh _]; subst. rewrite Hrp in Hh. now rewrite Hh.
    + destruct (getaddrinfo t hostname) as [e | ip_texts].
      * split; [discriminate | now intros [_ (addrs & [=] & _)]].
      * destruct (List.find _ ip_texts) as [a|] eqn:Hfind.
        -- split; [discriminate|]. intros [_ (addrs & [= <-] & Hall)].
           apply (proj1 (Forall_remove_dups _ _)) in Hall.
           apply (proj2 (find_offender_none _)) in Hall. congruence.
        -- split; [|reflexivity]. intros _. split; [exact Hne|].
           exists ip_texts. split; [reflexivity|].
           apply (proj2 (Forall_remove_dups _ _)). now apply (proj1 (find_offender_none _)).
Qed.

(** C1.  [_is_public_host]: an empty host name is blocked as missing; a
    DNS failure is blocked with a reason carrying the host name and the
    cause; a resolved address that is not public blocks the host name, the
    reason naming the host name and an offending address, whatever the
    order of the answers and whatever other addresses are public; and the
    host name is allowed exactly when every deduplicated resolved address
    is public. *)
Theorem C1_is_public_host (getaddrinfo : Trace -> string -> AddrInfo) :
  (forall t, _is_public_host getaddrinfo "" t = (Return (false, "Missing hostname"), t))
  /\ (forall hostname t e,
         hostname <> "" -> ip_address hostname = None ->
         getaddrinfo t hostname = gaierror e ->
         _is_public_host getaddrinfo hostname t =
         (Return (false, "DNS resolution failed for " +:+ hostname +:+ ": " +:+ e),
          after_dns t hostname))
  /\ (forall hostname t ip_texts,
         hostname <> "" -> ip_address hostname = None ->
         getaddrinfo t hostname = addr_info ip_texts ->
         Exists (fun a => resolved_public a = false) ip_texts ->
         exists a, a ∈ ip_texts /\ resolved_public a = false /\
                   _is_public_host getaddrinfo hostname t =
                   (Return (false, offender_reason hostname a), after_dns t hostname))
  /\ (forall hostname t1 t2 ip_texts1 ip_texts2,
         ip_address hostname = None ->
         getaddrinfo t1 hostname = addr_info ip_texts1 ->
         getaddrinfo t2 hostname = addr_info ip_texts2 ->
         ip_texts1 ≡ₚ ip_texts2 ->
         allowed (_is_public_host getaddrinfo hostname t1) =
         allowed (_is_public_host getaddrinfo hostname t2))
  /\ (forall hostname t,
         allowed (_is_public_host getaddrinfo hostname t) = true <->
         hostname <> "" /\
         exists addrs, resolve getaddrinfo t hostname = Some addrs
                       /\ Forall (fun a => resolved_public a = true) (remove_dups addrs)).
Proof.
  split; [|split; [|split; [|split]]].
  - intros t. now rewrite is_public_host_cases.
  - intros hostname t e Hne Hparse Hdns. rewrite is_public_host_cases.
    apply String.eqb_neq in Hne. now rewrite Hne, Hparse, Hdns.
  - intros hostname t ip_texts Hne Hparse Hdns Hbad.
    rewrite is_public_host_cases.
    apply String.eqb_neq in Hne. rewrite Hne, Hparse, Hdns.
    destruct (List.find _ ip_texts) as [a|] eqn:Hfind.
    + exists a. destruct (find_offender_some _ _ Hfind) as [Hin Hnp]. auto.
    + apply (proj1 (find_offender_none _)) in Hfind. apply Exists_exists in Hbad as (a & Hin & Hnp).
      rewrite list.Forall_forall in Hfind. specialize (Hfind a Hin). congruence.
  - intros hostname t1 t2 l1 l2 Hparse H1 H2 Hperm.
    apply eq_true_iff_eq. rewrite !allowed_iff_resolved_public.
    unfold resolve. rewrite Hparse, H1, H2.
    split; intros [Hne (addrs & [= <-] & Hall)]; (split; [exact Hne|]);
      eexists; (split; [reflexivity|]);
      apply (proj2 (Forall_remove_dups _ _)); apply (proj1 (Forall_remove_dups _ _)) in Hall.
    + now rewrite <- Hperm.
    + now rewrite Hperm.
  - intros hostname t. apply allowed_iff_resolved_public.
Qed.

(** C9.  A host name that is the text of an IP address is classified as
    it stands, without any DNS call: ["10.0.0.5"] is blocked with a reason
    that names it as a blocked non-public IP, and a globally routable
    literal is allowed. *)
Theorem C9_literal_ip_without_dns (getaddrinfo : Trace -> string -> AddrInfo) :
  (forall hostname ip t,
      ip_address hostname = Some ip ->
      _is_public_host getaddrinfo hostname t =
      (Return (if _is_public_ip ip then (true, "")
               else (false, "Blocked non-public IP: " +:+ hostname)), t))
  /\ (forall t, _is_public_host getaddrinfo "10.0.0.5" t =
                (Return (false, "Blocked non-public IP: 10.0.0.5"), t))
  /\ (forall t, _is_public_host getaddrinfo "93.184.216.34" t = (Return (true, ""), t))
  /\ (forall t, _is_public_host getaddrinfo "2606:2800:220:1:248:1893:25c8:1946" t =
                (Return (true, ""), t)).
Proof.
  split; [|repeat split; intros t; now rewrite is_public_host_cases].
  intros hostname ip t Hparse. rewrite is_public_host_cases.
  destruct (String.eqb_spec hostname "") as [-> | _].
  - rewrite ip_address_empty in Hparse. discriminate.
  - now rewrite Hparse.
Qed.

Lemma C9_witness :
  _is_public_host (fun _ _ => gaierror "unreachable") "::1" no_calls =
  (Return (false, "Blocked non-public IP: ::1"), no_calls).
Proof.
  apply (proj1 (C9_literal_ip_without_dns _) "::1" (IPv6Address 1) no_calls).
  reflexivity.
Defined.

(** ** The request gate and its host cache *)

(** With a resolver that answers or fails with [socket.gaierror], the
    validator returns: its decision, and the state after it. *)
Lemma is_public_host_returns (getaddrinfo : Trace -> string -> AddrInfo)
    (hostname : string) (t : Trace) :
  _is_public_host getaddrinfo hostname t =
  (Return (host_decision getaddrinfo hostname t),
   after_validation getaddrinfo hostname t).
Proof.
  unfold host_decision, after_validation. rewrite is_public_host_cases.
  destruct (String.eqb hostname ""); [reflexivity|].
  now destruct (ip_address hostname).
Qed.

(** It makes at most one DNS call, for the host name it is given, and no
    HTTP request. *)
Lemma after_validation_trace (getaddrinfo : Trace -> string -> AddrInfo)
    (hostname : string) (t : Trace) :
  after_validation getaddrinfo hostname t = t
  \/ after_validation getaddrinfo hostname t = after_dns t hostname.
Proof.
  unfold after_validation. rewrite is_public_host_cases.
  destruct (String.eqb hostname ""); [now left|].
  destruct (ip_address hostname); [now left | now right].
Qed.

Lemma network_scheme_not_local (s : string) :
  str_in s ["http"; "https"] = true -> str_in s ["data"; "blob"; "about"] = false.
Proof.
  unfold str_in. cbn [existsb]. rewrite !orb_false_r.
  intros H. apply orb_prop in H as [H | H]; apply String.eqb_eq in H; now subst s.
Qed.

Lemma route_handler_cases (getaddrinfo : Trace -> string -> AddrInfo)
    (req_url : string) (host_cache : gmap string (bool * string)) (t : Trace) :
  route_handler getaddrinfo req_url host_cache t =
  match urllib_parse.urlparse req_url with
  | None => (Raise ValueError, t)
  | Some parsed_req =>
      if str_in (urllib_parse.scheme parsed_req) ["data"; "blob"; "about"]
      then (Return (continue_, host_cache), t)
      else
        match urllib_parse.hostname parsed_req with
        | None => (Return (abort, host_cache), t)
        | Some h =>
            if negb (str_in (urllib_parse.scheme parsed_req) ["http"; "https"])
            then (Return (abort, host_cache), t)
            else
              match host_cache !! h with
              | Some cached => (Return (action_of cached, host_cache), t)
              | None =>
                  let cached := host_decision getaddrinfo h t in
                  (Return (action_of cached, <[h := cached]> host_cache),
                   after_validation getaddrinfo h t)
              end
        end
  end.
Proof.
  unfold route_handler, mbind, M_bind, or_ValueError, mret, M_ret, raise.
  destruct (urllib_parse.urlparse req_url) as [p|]; [|reflexivity].
  destruct (str_in (urllib_parse.scheme p) ["data"; "blob"; "about"]); [reflexivity|].
  destruct (urllib_parse.hostname p) as [h|]; [|reflexivity].
  destruct (negb _); [reflexivity|].
  destruct (host_cache !! h) as [cached|].
  - unfold action_of. now destruct (fst cached).
  - rewrite is_public_host_returns. unfold action_of.
    now destruct (fst (host_decision getaddrinfo h t)).
Qed.


Lemma action_of_spec (cached : bool * string) :
  (action_of cached = continue_ <-> fst cached = true)
  /\ (action_of cached = abort <-> fst cached = false).
Proof.
  destruct cached as [[] r]; unfold action_of; cbn; split; split; congruence.
Qed.

(** C3.  The request gate: a [data], [blob] or [about] request is let
    through without a resolver call and without touching the cache; a
    request of any other scheme than [http] and [https], or without a host
    name, is aborted; every other request is decided by the shared cache:
    by the tuple that the cache holds for its host name, the cache and
    the call history being left as they are, or, when the cache holds
    none, by the tuple that the validator returns for that host name
    now, which is stored under the host name. *)
Theorem C3_request_gate (getaddrinfo : Trace -> string -> AddrInfo)
    (req_url : string) (parsed_req : urllib_parse.ParseResult)
    (host_cache : gmap string (bool * string)) (t : Trace) :
  urllib_parse.urlparse req_url = Some parsed_req ->
  (str_in (urllib_parse.scheme parsed_req) ["data"; "blob"; "about"] = true ->
   route_handler getaddrinfo req_url host_cache t = (Return (continue_, host_cache), t))
  /\ (str_in (urllib_parse.scheme parsed_req) ["data"; "blob"; "about"] = false ->
      str_in (urllib_parse.scheme parsed_req) ["http"; "https"] = false
      \/ urllib_parse.hostname parsed_req = None ->
      route_handler getaddrinfo req_url host_cache t = (Return (abort, host_cache), t))
  /\ (forall h,
         str_in (urllib_parse.scheme parsed_req) ["http"; "https"] = true ->
         urllib_parse.hostname parsed_req = Some h ->
         (forall (is_public : bool) (reason : string),
             host_cache !! h = Some (is_public, reason) ->
             route_handler getaddrinfo req_url host_cache t
             = (Return (if is_public then continue_ else abort, host_cache), t))
         /\ (host_cache !! h = None ->
             forall (is_public : bool) (reason : string) (t' : Trace),
               _is_public_host getaddrinfo h t = (Return (is_public, reason), t') ->
               route_handler getaddrinfo req_url host_cache t
               = (Return (if is_public then continue_ else abort,
                          <[h := (is_public, reason)]> host_cache), t'))).
Proof.
  intros Hparse. rewrite route_handler_cases, Hparse. split; [|split].
  - now intros ->.
  - intros -> [Hs | Hh].
    + rewrite Hs. cbn [negb]. now destruct (urllib_parse.hostname parsed_req).
    + now rewrite Hh.
  - intros h Hs Hh. rewrite (network_scheme_not_local _ Hs), Hh, Hs. cbn [negb].
    split.
    + intros is_public reason Hhit. now rewrite Hhit.
    + intros Hmiss is_public reason t' Hrun. rewrite Hmiss. cbv zeta.
      rewrite is_public_host_returns in Hrun. injection Hrun as -> ->. reflexivity.
Qed.

Lemma handle_requests_cons (getaddrinfo : Trace -> string -> AddrInfo)
    (req_url : string) (rest : list string)
    (host_cache : gmap string (bool * string)) (t : Trace) :
  handle_requests getaddrinfo (req_url :: rest) host_cache t =
  match route_handler getaddrinfo req_url host_cache t with
  | (Return (action, host_cache1), t1) =>
      match handle_requests getaddrinfo rest host_cache1 t1 with
      | (Return (actions, host_cache2), t2) =>
          (Return (action :: actions, host_cache2), t2)
      | (Raise e, t2) => (Raise e, t2)
      end
  | (Raise e, t1) => (Raise e, t1)
  end.
Proof.
  cbn [handle_requests]. unfold mbind, M_bind, mret, M_ret.
  destruct (route_handler getaddrinfo req_url host_cache t) as [[[action c1]|e] t1];
    [|reflexivity].
  now destruct (handle_requests getaddrinfo rest c1 t1) as [[[actions c2]|e] t2].
Qed.





(** ** The URL validator *)

Lemma rstrip_idempotent (p : ascii -> bool) (s : string) :
  PyStr.rstrip p (PyStr.rstrip p s) = PyStr.rstrip p s.
Proof.
  induction s as [|c s IH]; [reflexivity|].
  cbn [PyStr.rstrip].
  destruct (PyStr.rstrip p s) as [|c' r] eqn:E.
  - destruct (p c) eqn:Hc; [reflexivity|]. cbn [PyStr.rstrip]. now rewrite Hc.
  - cbn [PyStr.rstrip]. cbn [PyStr.rstrip] in IH. now rewrite IH.
Qed.

Lemma lstrip_head (p : ascii -> bool) (s : string) :
  match PyStr.lstrip p s with
  | EmptyString => True
  | String c _ => p c = false
  end.
Proof.
  induction s as [|c s IH]; [exact I|].
  cbn [PyStr.lstrip]. now destruct (p c) eqn:Hc.
Qed.

Lemma lstrip_rstrip_lstrip (p : ascii -> bool) (s : string) :
  PyStr.lstrip p (PyStr.rstrip p (PyStr.lstrip p s))
  = PyStr.rstrip p (PyStr.lstrip p s).
Proof.
  pose proof (lstrip_head p s) as H.
  destruct (PyStr.lstrip p s) as [|c r]; [reflexivity|].
  cbn [PyStr.rstrip]. rewrite H.
  destruct (PyStr.rstrip p r); cbn [PyStr.lstrip]; now rewrite H.
Qed.

Lemma strip_idempotent (s : string) : PyStr.strip (PyStr.strip s) = PyStr.strip s.
Proof.
  unfold PyStr.strip. now rewrite lstrip_rstrip_lstrip, rstrip_idempotent.
Qed.

(** A URL that was given the [https://] prefix parses with scheme [https]. *)
Lemma urlparse_https_prefix (url : string) (parsed : urllib_parse.ParseResult) :
  urllib_parse.urlparse ("https://" +:+ url) = Some parsed ->
  urllib_parse.scheme parsed = "https".
Proof.
  unfold urllib_parse.urlparse, urllib_parse.urlsplit.
  change ("https://" +:+ url)
    with (String "h" (String "t" (String "t" (String "p" (String "s"
            (String ":" (String "/" (String "/" url)))))))).
  cbn [PyStr.lstrip]. change (PyStr.is_c0_or_space "h") with false. cbv iota.
  cbn [PyStr.remove].
  change (PyStr.is_unsafe_url_byte "h") with false.
  change (PyStr.is_unsafe_url_byte "t") with false.
  change (PyStr.is_unsafe_url_byte "p") with false.
  change (PyStr.is_unsafe_url_byte "s") with false.
  change (PyStr.is_unsafe_url_byte ":") with false.
  change (PyStr.is_unsafe_url_byte "/") with false.
  cbv iota.
  generalize (PyStr.remove PyStr.is_unsafe_url_byte url). intros rest.
  cbv -[urllib_parse._splitnetloc PyStr.contains
        urllib_parse._check_bracketed_netloc].
  repeat case_match; try discriminate; now intros [= <-].
Qed.

Lemma validate_url_cases (getaddrinfo : Trace -> string -> AddrInfo)
    (raw_url : string) (t : Trace) :
  _validate_url getaddrinfo raw_url t =
  let url := PyStr.strip raw_url in
  match urllib_parse.urlparse url with
  | None => (Raise ValueError, t)
  | Some parsed =>
      if String.eqb (urllib_parse.scheme parsed) ""
      then
        match urllib_parse.urlparse ("https://" +:+ url) with
        | None => (Raise ValueError, t)
        | Some parsed' => host_step getaddrinfo ("https://" +:+ url) parsed' t
        end
      else if negb (str_in (urllib_parse.scheme parsed) ["http"; "https"])
           then (Return (inr ("Invalid URL scheme: " +:+ urllib_parse.scheme parsed)), t)
           else host_step getaddrinfo url parsed t
  end.
Proof.
  assert (Hstep : forall url parsed,
             (if negb (str_in (urllib_parse.scheme parsed) ["http"; "https"])
              then mret (inr ("Invalid URL scheme: " +:+ urllib_parse.scheme parsed))
              else
                match urllib_parse.hostname parsed with
                | None => mret (inr "Invalid URL: missing hostname")
                | Some h =>
                    '(is_public, reason) ← _is_public_host getaddrinfo h;
                    if negb is_public then mret (inr reason) else mret (inl url)
                end) t
             = if negb (str_in (urllib_parse.scheme parsed) ["http"; "https"])
               then (Return (inr ("Invalid URL scheme: "
                                  +:+ urllib_parse.scheme parsed)), t)
               else host_step getaddrinfo url parsed t).
  { intros url parsed. destruct (negb _); [reflexivity|]. unfold host_step.
    destruct (urllib_parse.hostname parsed) as [h|]; [|reflexivity].
    unfold mbind, M_bind. rewrite is_public_host_returns.
    destruct (host_decision getaddrinfo h t) as [[] reason]; reflexivity. }
  unfold _validate_url. cbv zeta.
  unfold mbind at 1, M_bind at 1, or_ValueError at 1.
  destruct (urllib_parse.urlparse (PyStr.strip raw_url)) as [parsed|];
    [|reflexivity].
  unfold mret at 1, M_ret at 1.
  destruct (String.eqb (urllib_parse.scheme parsed) "") eqn:Hempty.
  - unfold mbind at 1, M_bind at 1, mbind at 1, M_bind at 1, or_ValueError at 1.
    destruct (urllib_parse.urlparse ("https://" +:+ PyStr.strip raw_url))
      as [parsed'|] eqn:Hp'; [|reflexivity].
    unfold mret at 1, M_ret at 1, mret at 1, M_ret at 1.
    rewrite Hstep, (urlparse_https_prefix _ _ Hp'). reflexivity.
  - unfold mbind at 1, M_bind at 1, mret at 1, M_ret at 1.
    apply Hstep.
Qed.


(** A blocking decision always comes with a reason, and so does a
    rejection by [_validate_url]: the test [if validation_error:] of the
    callers is the test for [inr]. *)
Lemma host_decision_reason (getaddrinfo : Trace -> string -> AddrInfo)
    (hostname : string) (t : Trace) :
  fst (host_decision getaddrinfo hostname t) = false ->
  snd (host_decision getaddrinfo hostname t) <> "".
Proof.
  unfold host_decision. rewrite is_public_host_cases.
  destruct (String.eqb hostname ""); [discriminate|].
  destruct (ip_address hostname) as [ip|].
  - cbn [fst snd]. destruct (_is_public_ip ip); [discriminate|].
    intros _. discriminate.
  - cbn [fst snd]. destruct (getaddrinfo t hostname) as [e|ip_texts];
      [intros _; discriminate|].
    destruct (List.find _ ip_texts) as [a|]; [|discriminate].
    intros _. unfold offender_reason. cbn [snd].
    destruct (ip_address a); discriminate.
Qed.

Lemma validate_url_reason (getaddrinfo : Trace -> string -> AddrInfo)
    (raw_url : string) (t t' : Trace) (reason : string) :
  _validate_url getaddrinfo raw_url t = (Return (inr reason), t') ->
  reason <> "".
Proof.
  assert (Hstep : forall url parsed,
             host_step getaddrinfo url parsed t = (Return (inr reason), t') ->
             reason <> "").
  { intros url parsed. unfold host_step.
    destruct (urllib_parse.hostname parsed) as [h|].
    - destruct (fst (host_decision getaddrinfo h t)) eqn:Hd; [discriminate|].
      intros [= <- _]. now apply host_decision_reason.
    - intros [= <- _]. discriminate. }
  rewrite validate_url_cases. cbv zeta.
  destruct (urllib_parse.urlparse (PyStr.strip raw_url)) as [parsed|];
    [|discriminate].
  destruct (String.eqb (urllib_parse.scheme parsed) "").
  - destruct (urllib_parse.urlparse _) as [parsed'|]; [apply Hstep | discriminate].
  - destruct (negb _); [|apply Hstep]. intros [= <- _]. discriminate.
Qed.


(** C10.  A text without [http://] or [https://] in front but with a
    colon before its first slash is not given the [https] scheme:
    [urlparse] takes what precedes the colon as the scheme, and the text is
    rejected with the invalid-scheme reason.  The [https] default applies
    only where [urlparse] finds an empty scheme. *)
Theorem C10_colon_before_slash (getaddrinfo : Trace -> string -> AddrInfo) :
  (forall t,
      _validate_url getaddrinfo "example.com:8080/path" t
      = (Return (inr "Invalid URL scheme: example.com"), t))
  /\ (forall t,
         _validate_url getaddrinfo "localhost:8080" t
         = (Return (inr "Invalid URL scheme: localhost"), t))
  /\ (forall raw_url t parsed,
         urllib_parse.urlparse (PyStr.strip raw_url) = Some parsed ->
         urllib_parse.scheme parsed <> "" ->
         str_in (urllib_parse.scheme parsed) ["http"; "https"] = false ->
         _validate_url getaddrinfo raw_url t
         = (Return (inr ("Invalid URL scheme: " +:+ urllib_parse.scheme parsed)), t))
  /\ (forall raw_url t parsed parsed',
         urllib_parse.urlparse (PyStr.strip raw_url) = Some parsed ->
         urllib_parse.scheme parsed = "" ->
         urllib_parse.urlparse ("https://" +:+ PyStr.strip raw_url) = Some parsed' ->
         _validate_url getaddrinfo raw_url t
         = host_step getaddrinfo ("https://" +:+ PyStr.strip raw_url) parsed' t).
Proof.
  split; [|split; [|split]].
  - intros t. now rewrite validate_url_cases.
  - intros t. now rewrite validate_url_cases.
  - intros raw t parsed Hp Hne Hs. rewrite validate_url_cases. cbv zeta.
    rewrite Hp. apply String.eqb_neq in Hne. now rewrite Hne, Hs.
  - intros raw t parsed parsed' Hp Hempty Hp'. rewrite validate_url_cases. cbv zeta.
    now rewrite Hp, Hempty, Hp'.
Qed.

(** ** The cache, and the checks beside it *)



(** ** The redirect loop of [fetch_page] *)

Section FetchProperties.

Variable getaddrinfo : Trace -> string -> AddrInfo.
Variable session_get : Trace -> string -> requests.RequestException + requests.Response.
Variable urljoin : string -> string -> option string.

Local Abbreviation public_hops := (public_hops getaddrinfo session_get urljoin).
Local Abbreviation public_final := (public_final getaddrinfo session_get).

Lemma session_get_response (t : Trace) (current_url : string)
    (response : requests.Response) :
  session_get t current_url = inr response ->
  session_get_ session_get current_url t = (Return response, after_get t current_url).
Proof. unfold session_get_, after_get. now intros ->. Qed.

(** Following the hops of a chain uses up one iteration for each. *)
Lemma redirect_loop_hops (max_redirects : Z) (result : FetchResult)
    (t : Trace) (current_url : string) (chain : list string)
    (last_url : string) (t' : Trace) :
  public_hops t current_url chain last_url t' ->
  forall (iterations : nat) (redirect_chain : list string),
    redirect_loop getaddrinfo session_get urljoin true max_redirects result
      (length chain + iterations) current_url redirect_chain t
    = redirect_loop getaddrinfo session_get urljoin true max_redirects result
        iterations last_url (redirect_chain ++ chain)%list t'.
Proof.
  induction 1 as [t u | t u next t1 chain last t2 Hhop _ IH];
    intros iterations acc.
  - cbn [length Nat.add]. now rewrite app_nil_r.
  - destruct Hhop as [response location parsed_next h reason
                        Hget Hred Hloc Hne Hjoin Hparse Hscheme Hhost Hpub].
    cbn [length Nat.add redirect_loop].
    unfold mbind at 1, M_bind at 1.
    rewrite (session_get_response _ _ _ Hget), Hred. cbn [negb orb].
    rewrite Hloc.
    destruct location as [|c location']; [congruence|].
    unfold mbind at 1, M_bind at 1, or_ValueError at 1. rewrite Hjoin.
    unfold mret at 1, M_ret at 1.
    unfold mbind at 1, M_bind at 1, or_ValueError at 1. rewrite Hparse.
    unfold mret at 1, M_ret at 1.
    rewrite Hhost, Hscheme. cbn [negb].
    unfold mbind at 1, M_bind at 1. rewrite Hpub. cbn [negb].
    rewrite IH. now rewrite <- app_assoc.
Qed.

Lemma fetch_page_validated (url : string) (timeout : Z) (follow_redirects : bool)
    (max_redirects : Z) (t0 : Trace) (validated_url : string) (t1 : Trace) :
  _validate_url getaddrinfo url t0 = (Return (inl validated_url), t1) ->
  fetch_page getaddrinfo session_get urljoin url timeout follow_redirects
    max_redirects t0
  = try_except
      (redirect_loop getaddrinfo session_get urljoin follow_redirects max_redirects
         (initial_result url) (Z.to_nat (max_redirects + 1)) validated_url [])
      (except_requests timeout max_redirects (initial_result url)) t1.
Proof.
  intros Hv. unfold fetch_page, mbind, M_bind. now rewrite Hv.
Qed.

Lemma try_except_return {A : Type} (body : M A)
    (handler : requests.RequestException -> M A) (t t' : Trace) (a : A) :
  body t = (Return a, t') -> try_except body handler t = (Return a, t').
Proof. unfold try_except. now intros ->. Qed.

(** The last iteration, on a response that is not followed: the host
    name of its URL, when it has one, decides. *)
Lemma redirect_loop_final (follow_redirects : bool) (max_redirects : Z)
    (result : FetchResult) (iterations : nat) (current_url : string)
    (redirect_chain : list string) (t : Trace) (response : requests.Response)
    (parsed_final : urllib_parse.ParseResult) :
  session_get t current_url = inr response ->
  negb follow_redirects || negb (requests.is_redirect response) = true ->
  urllib_parse.urlparse (requests.url response) = Some parsed_final ->
  redirect_loop getaddrinfo session_get urljoin follow_redirects max_redirects
    result (S iterations) current_url redirect_chain t
  = match urllib_parse.hostname parsed_final with
    | Some h =>
        let cached := host_decision getaddrinfo h (after_get t current_url) in
        (Return (if fst cached
                 then set_response result response redirect_chain
                 else set_error result ("Blocked final URL: " +:+ snd cached)),
         after_validation getaddrinfo h (after_get t current_url))
    | None =>
        (Return (set_response result response redirect_chain),
         after_get t current_url)
    end.
Proof.
  intros Hget Hfinal Hparse. cbn [redirect_loop].
  unfold mbind at 1, M_bind at 1.
  rewrite (session_get_response _ _ _ Hget), Hfinal.
  unfold mbind at 1, M_bind at 1, or_ValueError at 1. rewrite Hparse.
  unfold mret at 1, M_ret at 1.
  destruct (urllib_parse.hostname parsed_final) as [h|]; [|reflexivity].
  unfold mbind, M_bind. rewrite is_public_host_returns. cbv zeta.
  now destruct (host_decision getaddrinfo h (after_get t current_url)) as [[] reason].
Qed.

(** The result dictionary after [result["error"] = ...], and after the
    five assignments of a success, entry by entry. *)
Lemma set_error_initial (url msg : string) :
  set_error (initial_result url) msg = failure url msg.
Proof. reflexivity. Qed.

Lemma set_response_initial (url : string) (response : requests.Response)
    (redirect_chain : list string) :
  set_response (initial_result url) response redirect_chain
  = success response redirect_chain.
Proof. reflexivity. Qed.


(** After the hops of a chain, the loop goes on from its last URL. *)
Lemma fetch_page_hops (url : string) (timeout max_redirects : Z)
    (t0 : Trace) (validated_url : string) (t1 : Trace) (chain : list string)
    (current_url : string) (t2 : Trace) :
  _validate_url getaddrinfo url t0 = (Return (inl validated_url), t1) ->
  public_hops t1 validated_url chain current_url t2 ->
  (length chain <= Z.to_nat (max_redirects + 1))%nat ->
  fetch_page getaddrinfo session_get urljoin url timeout true max_redirects t0
  = try_except
      (fun t => redirect_loop getaddrinfo session_get urljoin true
                  max_redirects (initial_result url)
                  (Z.to_nat (max_redirects + 1) - length chain)
                  current_url chain t2)
      (except_requests timeout max_redirects (initial_result url)) t1.
Proof.
  intros Hv Hhops Hlen.
  rewrite (fetch_page_validated _ _ _ _ _ _ _ Hv). unfold try_except.
  replace (Z.to_nat (max_redirects + 1))
    with (length chain + (Z.to_nat (max_redirects + 1) - length chain))%nat
    at 1 by lia.
  now rewrite (redirect_loop_hops _ _ _ _ _ _ _ Hhops).
Qed.

(** C4.  With [max_redirects >= 0], a chain of exactly [max_redirects]
    hops to public [http] or [https] hosts makes [fetch_page] succeed with
    a [redirect_chain] of that length, and a chain of [max_redirects + 1]
    such hops makes it fail: no status, no content, and the error
    ["Too many redirects (max N)"]. *)
Theorem C4_redirect_budget (url : string) (timeout max_redirects : Z)
    (t0 : Trace) (validated_url : string) (t1 : Trace) :
  0 <= max_redirects ->
  _validate_url getaddrinfo url t0 = (Return (inl validated_url), t1) ->
  (forall chain last_url t2 response t3,
      public_hops t1 validated_url chain last_url t2 ->
      length chain = Z.to_nat max_redirects ->
      public_final t2 last_url response t3 ->
      exists result,
        fetch_page getaddrinfo session_get urljoin url timeout true max_redirects t0
        = (Return result, t3)
        /\ error result = None
        /\ status_code result = Some (requests.status_code response)
        /\ content result = Some (requests.text response)
        /\ redirect_chain result = chain
        /\ length (redirect_chain result) = Z.to_nat max_redirects)
  /\ (forall chain last_url t2,
         public_hops t1 validated_url chain last_url t2 ->
         length chain = Z.to_nat (max_redirects + 1) ->
         exists result,
           fetch_page getaddrinfo session_get urljoin url timeout true max_redirects t0
           = (Return result, t2)
           /\ error result
              = Some ("Too many redirects (max " +:+ pretty max_redirects +:+ ")")
           /\ status_code result = None
           /\ content result = None).
Proof.
  intros Hmax Hv. split.
  - intros chain last t2 response t3 Hhops Hlen
           (Hget & Hred & parsed_final & h & reason & Hparse & Hhost & Hpub).
    exists (success response chain).
    split; [|now repeat split].
    rewrite (fetch_page_hops _ _ _ _ _ _ _ _ _ Hv Hhops) by lia.
    apply try_except_return.
    replace (Z.to_nat (max_redirects + 1) - length chain)%nat with 1%nat by lia.
    rewrite (redirect_loop_final true _ _ _ _ _ _ _ _ Hget
               ltac:(now rewrite Hred) Hparse), Hhost.
    cbv zeta. rewrite is_public_host_returns in Hpub.
    injection Hpub as Hd Ht. now rewrite Hd, Ht.
  - intros chain last t2 Hhops Hlen.
    exists (failure url ("Too many redirects (max " +:+ pretty max_redirects +:+ ")")).
    split; [|now repeat split].
    rewrite (fetch_page_hops _ _ _ _ _ _ _ _ _ Hv Hhops) by lia.
    apply try_except_return.
    replace (Z.to_nat (max_redirects + 1) - length chain)%nat with 0%nat by lia.
    reflexivity.
Qed.

Lemma after_validation_http_log (hostname : string) (t : Trace) :
  http_log (after_validation getaddrinfo hostname t) = http_log t.
Proof.
  now destruct (after_validation_trace getaddrinfo hostname t) as [-> | ->].
Qed.



End FetchProperties.

(** * The theorems at work in the concrete environment *)

Lemma C1_witness :
  exists a,
    a ∈ ["93.184.216.34"; "93.184.216.34"; "10.0.0.5"]
    /\ resolved_public a = false
    /\ _is_public_host mock_getaddrinfo "mixed.example" no_calls
       = (Return (false, offender_reason "mixed.example" a),
          after_dns no_calls "mixed.example").
Proof.
  apply (proj1 (proj2 (proj2 (C1_is_public_host mock_getaddrinfo)))
           "mixed.example" no_calls ["93.184.216.34"; "93.184.216.34"; "10.0.0.5"]).
  - discriminate.
  - reflexivity.
  - reflexivity.
  - do 2 apply Exists_cons_tl. apply Exists_cons_hd. reflexivity.
Defined.

Lemma C3_witness :
  route_handler mock_getaddrinfo "data:text/plain,hi" ∅ no_calls
  = (Return (continue_, ∅), no_calls)
  /\ route_handler mock_getaddrinfo "ftp://example.com/file" ∅ no_calls
     = (Return (abort, ∅), no_calls)
  /\ route_handler mock_getaddrinfo "https://example.com/app.js"
       {[ "example.com" := (false, "Blocked non-public IP for example.com: 10.0.0.5") ]}
       no_calls
     = (Return (abort,
                {[ "example.com"
                   := (false, "Blocked non-public IP for example.com: 10.0.0.5") ]}),
        no_calls)
  /\ route_handler mock_getaddrinfo "http://localhost/admin" ∅ no_calls
     = (Return (abort,
                <["localhost" := (false, "Blocked non-public IP for localhost: 127.0.0.1")]>
                  ∅),
        after_dns no_calls "localhost").
Proof.
  split; [|split; [|split]].
  - apply (proj1 (C3_request_gate mock_getaddrinfo "data:text/plain,hi"
                    {| urllib_parse.scheme := "data"; urllib_parse.netloc := "" |}
                    ∅ no_calls eq_refl)).
    reflexivity.
  - apply (proj1 (proj2 (C3_request_gate mock_getaddrinfo "ftp://example.com/file"
                           {| urllib_parse.scheme := "ftp";
                              urllib_parse.netloc := "example.com" |}
                           ∅ no_calls eq_refl))).
    + reflexivity.
    + now left.
  - apply (proj1 (proj2 (proj2 (C3_request_gate mock_getaddrinfo
                                  "https://example.com/app.js"
                                  {| urllib_parse.scheme := "https";
                                     urllib_parse.netloc := "example.com" |}
                                  _ no_calls eq_refl))
                    "example.com" eq_refl eq_refl)
             false "Blocked non-public IP for example.com: 10.0.0.5").
    apply lookup_singleton_eq.
  - apply (proj2 (proj2 (proj2 (C3_request_gate mock_getaddrinfo
                                  "http://localhost/admin"
                                  {| urllib_parse.scheme := "http";
                                     urllib_parse.netloc := "localhost" |}
                                  ∅ no_calls eq_refl))
                    "localhost" eq_refl eq_refl)
             (lookup_empty _) false "Blocked non-public IP for localhost: 127.0.0.1").
    reflexivity.
Defined.




Lemma C10_witness :
  _validate_url mock_getaddrinfo "mailto:ads@example.com" no_calls
  = (Return (inr "Invalid URL scheme: mailto"), no_calls).
Proof.
  apply (proj1 (proj2 (proj2 (C10_colon_before_slash mock_getaddrinfo)))
           "mailto:ads@example.com" no_calls
           {| urllib_parse.scheme := "mailto"; urllib_parse.netloc := "" |}).
  - reflexivity.
  - discriminate.
  - reflexivity.
Defined.

Lemma one_hop_chain :
  public_hops mock_getaddrinfo server_one_hop mock_urljoin
    (after_dns no_calls "example.com") "https://example.com/a"
    ["https://example.com/b"] "https://example.com/b"
    (after_dns (after_get (after_dns no_calls "example.com") "https://example.com/a")
       "example.com").
Proof.
  eapply public_hops_cons; [|apply public_hops_nil].
  eapply (public_hop_intro _ _ _ _ _ _ _
            (redirect_to "https://example.com/a" "https://example.com/b" eq_refl)
            "https://example.com/b"
            {| urllib_parse.scheme := "https"; urllib_parse.netloc := "example.com" |}
            "example.com" "");
    try reflexivity.
  discriminate.
Defined.

Lemma C4_witness :
  (exists result,
      fetch_page mock_getaddrinfo server_one_hop mock_urljoin "example.com/a" 30 true 1
        no_calls
      = (Return result,
         after_dns
           (after_get
              (after_dns
                 (after_get (after_dns no_calls "example.com") "https://example.com/a")
                 "example.com") "https://example.com/b") "example.com")
      /\ error result = None
      /\ status_code result
         = Some (requests.status_code (page "https://example.com/b" eq_refl))
      /\ content result = Some (requests.text (page "https://example.com/b" eq_refl))
      /\ redirect_chain result = ["https://example.com/b"]
      /\ length (redirect_chain result) = Z.to_nat 1)
  /\ (exists result,
         fetch_page mock_getaddrinfo server_one_hop mock_urljoin "example.com/a" 30 true 0
           no_calls
         = (Return result,
            after_dns
              (after_get (after_dns no_calls "example.com") "https://example.com/a")
              "example.com")
         /\ error result = Some ("Too many redirects (max " +:+ pretty 0 +:+ ")")
         /\ status_code result = None
         /\ content result = None).
Proof.
  split.
  - apply (proj1 (C4_redirect_budget mock_getaddrinfo server_one_hop mock_urljoin
                    "example.com/a" 30 1 no_calls "https://example.com/a"
                    (after_dns no_calls "example.com") ltac:(lia) eq_refl)
             ["https://example.com/b"] "https://example.com/b" _ _ _ one_hop_chain
             eq_refl).
    split; [reflexivity|]. split; [reflexivity|].
    exists {| urllib_parse.scheme := "https"; urllib_parse.netloc := "example.com" |},
           "example.com", "".
    repeat split.
  - apply (proj2 (C4_redirect_budget mock_getaddrinfo server_one_hop mock_urljoin
                    "example.com/a" 30 0 no_calls "https://example.com/a"
                    (after_dns no_calls "example.com") ltac:(lia) eq_refl)
             ["https://example.com/b"] "https://example.com/b" _ one_hop_chain
             eq_refl).
Defined.






(** The scenarios of the design, on the concrete resolver. *)
Example localhost_is_blocked :
  _is_public_host mock_getaddrinfo "localhost" no_calls
  = (Return (false, "Blocked non-public IP for localhost: 127.0.0.1"),
     after_dns no_calls "localhost").
Proof. vm_compute. reflexivity. Qed.

Example example_com_is_validated :
  _validate_url mock_getaddrinfo "example.com" no_calls
  = (Return (inl "https://example.com"), after_dns no_calls "example.com").
Proof. vm_compute. reflexivity. Qed.

Example empty_location_is_missing :
  fst (fetch_page mock_getaddrinfo server_empty_location mock_urljoin
         "https://example.com/a" 30 true 5 no_calls)
  = Return (failure "https://example.com/a"
              "Redirect response missing Location header").
Proof. vm_compute. reflexivity. Qed.

Example one_hop_over_budget :
  fst (fetch_page mock_getaddrinfo server_one_hop mock_urljoin
         "example.com/a" 30 true 0 no_calls)
  = Return (failure "example.com/a" "Too many redirects (max 0)").
Proof. vm_compute. reflexivity. Qed.

(** The final URL of a page whose name is bound to another address once
    it has been validated: the check after the request blocks it. *)
Example rebound_final_url_is_blocked :
  fst (fetch_page rebinding_getaddrinfo server_rebind mock_urljoin
         "https://rebind.example/" 30 true 5 no_calls)
  = Return (failure "https://rebind.example/"
              "Blocked final URL: Blocked non-public IP for rebind.example: 127.0.0.1").
Proof. vm_compute. reflexivity. Qed.

(** * Further properties of the guard *)

(** ** [_is_public_host] and [_validate_url] *)

(** X1.  [_is_public_host] makes no HTTP request and at most one DNS
    query, for the host name it was given; for an empty host name and
    for the text of an IP address it returns without any query. *)
Theorem X1_validator_effects (getaddrinfo : Trace -> string -> AddrInfo)
    (hostname : string) (t : Trace) :
  let run := _is_public_host getaddrinfo hostname t in
  http_log (snd run) = http_log t
  /\ (dns_log (snd run) = dns_log t \/ dns_log (snd run) = hostname :: dns_log t)
  /\ (hostname = "" \/ is_Some (ip_address hostname) ->
      exists cached, run = (Return cached, t)).
Proof.
  cbv zeta. fold (after_validation getaddrinfo hostname t).
  split; [|split].
  - destruct (after_validation_trace getaddrinfo hostname t) as [-> | ->]; reflexivity.
  - destruct (after_validation_trace getaddrinfo hostname t) as [-> | ->];
      [now left | now right].
  - rewrite is_public_host_cases.
    intros [-> | [ip Hip]]; [eauto|].
    destruct (String.eqb hostname ""); [eauto|]. rewrite Hip. eauto.
Qed.

Lemma decision_reason_empty_iff (getaddrinfo : Trace -> string -> AddrInfo)
    (hostname : string) (t : Trace) :
  fst (host_decision getaddrinfo hostname t) = true
  <-> snd (host_decision getaddrinfo hostname t) = "".
Proof.
  split.
  - unfold host_decision. rewrite is_public_host_cases.
    destruct (String.eqb hostname ""); [discriminate|].
    destruct (ip_address hostname) as [ip|]; cbn [fst snd].
    + now destruct (_is_public_ip ip).
    + destruct (getaddrinfo t hostname) as [e|ip_texts]; [discriminate|].
      now destruct (List.find _ ip_texts).
  - intros Hempty.
    destruct (fst (host_decision getaddrinfo hostname t)) eqn:Hd; [reflexivity|].
    now apply host_decision_reason in Hd.
Qed.

(** X2.  The reason that [_is_public_host] returns is empty exactly when
    the host name is allowed. *)
Theorem X2_reason_empty_iff_allowed (getaddrinfo : Trace -> string -> AddrInfo)
    (hostname : string) (t t' : Trace) (is_public : bool) (reason : string) :
  _is_public_host getaddrinfo hostname t = (Return (is_public, reason), t') ->
  (is_public = true <-> reason = "").
Proof.
  intros Hrun. rewrite is_public_host_returns in Hrun. injection Hrun as Hd _.
  pose proof (decision_reason_empty_iff getaddrinfo hostname t) as Hiff.
  now rewrite Hd in Hiff.
Qed.

Lemma X2_witness :
  (false = true <-> "Blocked non-public IP for localhost: 127.0.0.1" = "").
Proof.
  apply (X2_reason_empty_iff_allowed mock_getaddrinfo "localhost" no_calls
           (after_dns no_calls "localhost")).
  reflexivity.
Defined.

Lemma host_step_trace (getaddrinfo : Trace -> string -> AddrInfo) (url : string)
    (parsed : urllib_parse.ParseResult) (t : Trace) :
  let t' := snd (host_step getaddrinfo url parsed t) in
  http_log t' = http_log t
  /\ (dns_log t' = dns_log t
      \/ exists h, urllib_parse.hostname parsed = Some h
                   /\ dns_log t' = h :: dns_log t).
Proof.
  unfold host_step. destruct (urllib_parse.hostname parsed) as [h|]; cbn [snd].
  - destruct (after_validation_trace getaddrinfo h t) as [-> | ->].
    + split; [reflexivity | now left].
    + split; [reflexivity | right; now exists h].
  - split; [reflexivity | now left].
Qed.

(** A success of [_validate_url] is a success of its host check, on the
    trimmed text or on the trimmed text with [https://] in front. *)
Lemma validate_url_success (getaddrinfo : Trace -> string -> AddrInfo)
    (raw_url : string) (t : Trace) (url : string) (t' : Trace) :
  _validate_url getaddrinfo raw_url t = (Return (inl url), t') ->
  exists u parsed,
    (u = PyStr.strip raw_url \/ u = "https://" +:+ PyStr.strip raw_url)
    /\ urllib_parse.urlparse u = Some parsed
    /\ str_in (urllib_parse.scheme parsed) ["http"; "https"] = true
    /\ host_step getaddrinfo u parsed t = (Return (inl url), t').
Proof.
  rewrite validate_url_cases. cbv zeta.
  destruct (urllib_parse.urlparse (PyStr.strip raw_url)) as [parsed|] eqn:Hp;
    [|discriminate].
  destruct (String.eqb (urllib_parse.scheme parsed) "").
  - destruct (urllib_parse.urlparse ("https://" +:+ PyStr.strip raw_url))
      as [parsed'|] eqn:Hp'; [|discriminate].
    intros Hrun. exists ("https://" +:+ PyStr.strip raw_url), parsed'.
    repeat split; auto. now rewrite (urlparse_https_prefix _ _ Hp').
  - destruct (str_in (urllib_parse.scheme parsed) ["http"; "https"]) eqn:Hs;
      cbn [negb]; [|discriminate].
    intros Hrun. exists (PyStr.strip raw_url), parsed. repeat split; auto.
Qed.

Lemma host_step_success (getaddrinfo : Trace -> string -> AddrInfo)
    (u : string) (parsed : urllib_parse.ParseResult) (t : Trace)
    (url : string) (t' : Trace) :
  host_step getaddrinfo u parsed t = (Return (inl url), t') ->
  url = u
  /\ exists h, urllib_parse.hostname parsed = Some h
               /\ _is_public_host getaddrinfo h t = (Return (true, ""), t').
Proof.
  unfold host_step.
  destruct (urllib_parse.hostname parsed) as [h|] eqn:Hh; [|discriminate].
  destruct (fst (host_decision getaddrinfo h t)) eqn:Hd; [|discriminate].
  intros [= <- <-]. split; [reflexivity|]. exists h. split; [reflexivity|].
  rewrite is_public_host_returns. f_equal.
  pose proof (proj1 (decision_reason_empty_iff getaddrinfo h t) Hd) as Hr.
  destruct (host_decision getaddrinfo h t) as [b r]. cbn in Hd, Hr. now subst.
Qed.

(** X3.  A URL that [_validate_url] returns is the trimmed text, with
    [https://] in front if it had no scheme; it parses with the scheme
    [http] or [https] and with a host name that the validator allowed in
    this very call. *)
Theorem X3_validated_url_is_vetted (getaddrinfo : Trace -> string -> AddrInfo)
    (raw_url : string) (t : Trace) (url : string) (t' : Trace) :
  _validate_url getaddrinfo raw_url t = (Return (inl url), t') ->
  (url = PyStr.strip raw_url \/ url = "https://" +:+ PyStr.strip raw_url)
  /\ exists parsed h,
      urllib_parse.urlparse url = Some parsed
      /\ str_in (urllib_parse.scheme parsed) ["http"; "https"] = true
      /\ urllib_parse.hostname parsed = Some h
      /\ _is_public_host getaddrinfo h t = (Return (true, ""), t').
Proof.
  intros Hrun.
  destruct (validate_url_success _ _ _ _ _ Hrun) as (u & parsed & Hform & Hp & Hs & Hstep).
  destruct (host_step_success _ _ _ _ _ _ Hstep) as [-> (h & Hh & Hpub)].
  split; [exact Hform|]. exists parsed, h. auto.
Qed.

Lemma X3_witness :
  ("https://example.com/path" = PyStr.strip "  example.com/path "
   \/ "https://example.com/path" = "https://" +:+ PyStr.strip "  example.com/path ")
  /\ exists parsed h,
      urllib_parse.urlparse "https://example.com/path" = Some parsed
      /\ str_in (urllib_parse.scheme parsed) ["http"; "https"] = true
      /\ urllib_parse.hostname parsed = Some h
      /\ _is_public_host mock_getaddrinfo h no_calls
         = (Return (true, ""), after_dns no_calls "example.com").
Proof.
  apply (X3_validated_url_is_vetted mock_getaddrinfo "  example.com/path " no_calls).
  reflexivity.
Defined.

(** X4.  Whatever its outcome, [_validate_url] makes no HTTP request and
    at most one DNS query; and the reason of a rejection is never empty,
    so that the test [if validation_error:] of the callers sees it. *)
Theorem X4_validate_url_effects (getaddrinfo : Trace -> string -> AddrInfo)
    (raw_url : string) (t : Trace) :
  let run := _validate_url getaddrinfo raw_url t in
  http_log (snd run) = http_log t
  /\ (dns_log (snd run) = dns_log t \/ exists h, dns_log (snd run) = h :: dns_log t)
  /\ (forall reason, fst run = Return (inr reason) -> reason <> "").
Proof.
  cbv zeta. split; [|split].
  - rewrite validate_url_cases. cbv zeta.
    destruct (urllib_parse.urlparse _) as [parsed|]; [|reflexivity].
    destruct (String.eqb _ "").
    + destruct (urllib_parse.urlparse _) as [parsed'|]; [|reflexivity].
      apply host_step_trace.
    + destruct (negb _); [reflexivity | apply host_step_trace].
  - rewrite validate_url_cases. cbv zeta.
    destruct (urllib_parse.urlparse _) as [parsed|]; [|now left].
    destruct (String.eqb _ "").
    + destruct (urllib_parse.urlparse _) as [parsed'|]; [|now left].
      destruct (host_step_trace getaddrinfo ("https://" +:+ PyStr.strip raw_url)
                  parsed' t) as [_ [H | (h & _ & H)]]; [now left | right; eauto].
    + destruct (negb _); [now left|].
      destruct (host_step_trace getaddrinfo (PyStr.strip raw_url) parsed t)
        as [_ [H | (h & _ & H)]]; [now left | right; eauto].
  - intros reason Hrun.
    destruct (_validate_url getaddrinfo raw_url t) as [o t'] eqn:E.
    cbn [fst] in Hrun. subst o. eapply validate_url_reason. exact E.
Qed.

Lemma X1_witness :
  exists cached,
    _is_public_host mock_getaddrinfo "10.0.0.5" no_calls = (Return cached, no_calls).
Proof.
  apply (proj2 (proj2 (X1_validator_effects mock_getaddrinfo "10.0.0.5" no_calls))).
  right. now exists (IPv4Address 167772165).
Defined.

Lemma X4_witness : "Invalid URL scheme: ftp" <> "".
Proof.
  apply (proj2 (proj2 (X4_validate_url_effects mock_getaddrinfo "ftp://example.com"
                         no_calls))).
  reflexivity.
Defined.

Lemma rstrip_cons_nonempty (p : ascii -> bool) (c : ascii) (s : string) :
  PyStr.rstrip p s <> "" ->
  PyStr.rstrip p (String c s) = String c (PyStr.rstrip p s).
Proof. cbn [PyStr.rstrip]. now destruct (PyStr.rstrip p s). Qed.

Lemma rstrip_app_fixed (p : ascii -> bool) (a s : string) :
  PyStr.rstrip p s = s -> s <> "" -> PyStr.rstrip p (a +:+ s) = a +:+ s.
Proof.
  intros Hfix Hne. induction a as [|c a IH]; [exact Hfix|].
  change (String c a +:+ s) with (String c (a +:+ s)).
  rewrite rstrip_cons_nonempty; rewrite IH.
  - reflexivity.
  - destruct a; [exact Hne | discriminate].
Qed.

Lemma strip_https_prefix (raw_url : string) :
  PyStr.strip ("https://" +:+ PyStr.strip raw_url) = "https://" +:+ PyStr.strip raw_url.
Proof.
  unfold PyStr.strip at 1.
  assert (Hl : PyStr.lstrip PyStr.is_space ("https://" +:+ PyStr.strip raw_url)
               = "https://" +:+ PyStr.strip raw_url) by reflexivity.
  rewrite Hl.
  destruct (PyStr.strip raw_url) as [|c x] eqn:Hx; [reflexivity|].
  rewrite <- Hx. apply rstrip_app_fixed.
  - unfold PyStr.strip. apply rstrip_idempotent.
  - rewrite Hx. discriminate.
Qed.

Lemma network_scheme_nonempty (s : string) :
  str_in s ["http"; "https"] = true -> String.eqb s "" = false.
Proof.
  intros H. destruct (String.eqb_spec s "") as [-> | _]; [discriminate H | reflexivity].
Qed.

(** X5.  Normalisation is idempotent: a URL that [_validate_url] has
    returned is, when validated again (in any state), either returned
    unchanged or rejected with the reason of the host validator; it is
    never altered and the call never raises. *)
Theorem X5_validate_url_idempotent (getaddrinfo : Trace -> string -> AddrInfo)
    (raw_url : string) (t : Trace) (url : string) (t1 t2 : Trace) :
  _validate_url getaddrinfo raw_url t = (Return (inl url), t1) ->
  exists h is_public reason t3,
    _is_public_host getaddrinfo h t2 = (Return (is_public, reason), t3)
    /\ _validate_url getaddrinfo url t2
       = (Return (if is_public then inl url else inr reason), t3).
Proof.
  intros Hrun.
  destruct (validate_url_success _ _ _ _ _ Hrun) as (u & parsed & Hform & Hp & Hs & Hstep).
  destruct (host_step_success _ _ _ _ _ _ Hstep) as [<- (h & Hh & _)].
  assert (Hstrip : PyStr.strip url = url).
  { destruct Hform as [-> | ->]; [apply strip_idempotent | apply strip_https_prefix]. }
  exists h, (fst (host_decision getaddrinfo h t2)),
         (snd (host_decision getaddrinfo h t2)),
         (after_validation getaddrinfo h t2).
  split.
  - rewrite is_public_host_returns. now destruct (host_decision getaddrinfo h t2).
  - rewrite validate_url_cases. cbv zeta.
    rewrite Hstrip, Hp, (network_scheme_nonempty _ Hs), Hs. cbn [negb].
    unfold host_step. now rewrite Hh.
Qed.

Lemma X5_witness :
  exists h is_public reason t3,
    _is_public_host mock_getaddrinfo h (after_dns no_calls "example.com")
    = (Return (is_public, reason), t3)
    /\ _validate_url mock_getaddrinfo "https://example.com/path"
         (after_dns no_calls "example.com")
       = (Return (if is_public then inl "https://example.com/path" else inr reason), t3).
Proof.
  apply (X5_validate_url_idempotent mock_getaddrinfo "  example.com/path " no_calls
           "https://example.com/path" (after_dns no_calls "example.com")).
  reflexivity.
Defined.

(** ** Every run of [fetch_page] *)

Section FetchRuns.

Variable getaddrinfo : Trace -> string -> AddrInfo.
Variable session_get : Trace -> string -> requests.RequestException + requests.Response.
Variable urljoin : string -> string -> option string.

(** One iteration of the loop, by cases on what the environment answers. *)
Lemma redirect_loop_step (follow_redirects : bool) (max_redirects : Z)
    (result : FetchResult) (iterations : nat) (current_url : string)
    (redirect_chain : list string) (t : Trace) :
  redirect_loop getaddrinfo session_get urljoin follow_redirects max_redirects
    result (S iterations) current_url redirect_chain t
  = let t1 := after_get t current_url in
    match session_get t current_url with
    | inl e => (Raise (RequestsError e), t1)
    | inr response =>
        if negb follow_redirects || negb (requests.is_redirect response) then
          match urllib_parse.urlparse (requests.url response) with
          | None => (Raise ValueError, t1)
          | Some parsed_final =>
              match urllib_parse.hostname parsed_final with
              | Some h =>
                  (Return (if fst (host_decision getaddrinfo h t1)
                           then set_response result response redirect_chain
                           else set_error result
                                  ("Blocked final URL: "
                                   +:+ snd (host_decision getaddrinfo h t1))),
                   after_validation getaddrinfo h t1)
              | None => (Return (set_response result response redirect_chain), t1)
              end
          end
        else
          match requests.headers_get "Location" (requests.headers response) with
          | None | Some "" =>
              (Return (set_error result "Redirect response missing Location header"), t1)
          | Some location =>
              match urljoin current_url location with
              | None => (Raise ValueError, t1)
              | Some next_url =>
                  match urllib_parse.urlparse next_url with
                  | None => (Raise ValueError, t1)
                  | Some parsed_next =>
                      match urllib_parse.hostname parsed_next with
                      | Some h =>
                          if negb (str_in (urllib_parse.scheme parsed_next)
                                     ["http"; "https"])
                          then (Return (set_error result
                                          ("Blocked redirect target: " +:+ next_url)), t1)
                          else if fst (host_decision getaddrinfo h t1)
                          then redirect_loop getaddrinfo session_get urljoin
                                 follow_redirects max_redirects result iterations
                                 next_url (redirect_chain ++ [next_url])%list
                                 (after_validation getaddrinfo h t1)
                          else (Return (set_error result
                                          ("Blocked redirect target: "
                                           +:+ snd (host_decision getaddrinfo h t1))),
                                after_validation getaddrinfo h t1)
                      | None =>
                          (Return (set_error result
                                     ("Blocked redirect target: " +:+ next_url)), t1)
                      end
                  end
              end
          end
    end.
Proof.
  cbn [redirect_loop]. cbv zeta.
  unfold mbind at 1, M_bind at 1, session_get_ at 1. fold (after_get t current_url).
  destruct (session_get t current_url) as [e|response]; [reflexivity|].
  destruct (negb follow_redirects || negb (requests.is_redirect response)).
  - unfold mbind at 1, M_bind at 1, or_ValueError at 1.
    destruct (urllib_parse.urlparse (requests.url response)) as [pf|]; [|reflexivity].
    unfold mret at 1, M_ret at 1.
    destruct (urllib_parse.hostname pf) as [h|]; [|reflexivity].
    unfold mbind, M_bind. rewrite is_public_host_returns.
    now destruct (host_decision getaddrinfo h (after_get t current_url)) as [[] r].
  - destruct (requests.headers_get "Location" (requests.headers response))
      as [[|c location]|]; [reflexivity| |reflexivity].
    unfold mbind at 1, M_bind at 1, or_ValueError at 1.
    destruct (urljoin current_url (String c location)) as [next|]; [|reflexivity].
    unfold mret at 1, M_ret at 1.
    unfold mbind at 1, M_bind at 1, or_ValueError at 1.
    destruct (urllib_parse.urlparse next) as [pn|]; [|reflexivity].
    unfold mret at 1, M_ret at 1.
    destruct (urllib_parse.hostname pn) as [h|]; [|reflexivity].
    destruct (negb _); [reflexivity|].
    unfold mbind at 1, M_bind at 1. rewrite is_public_host_returns.
    now destruct (host_decision getaddrinfo h (after_get t current_url)) as [[] r].
Qed.

(** The validator leaves the HTTP log as it is, and so do the
    validations between the requests of a run. *)
Lemma is_public_host_state (h : string) (t t' : Trace) (cached : bool * string) :
  _is_public_host getaddrinfo h t = (Return cached, t') ->
  t' = after_validation getaddrinfo h t.
Proof. rewrite is_public_host_returns. now intros [= _ <-]. Qed.

Lemma vetted_requests_http_log (t : Trace) (requested : list string) (t' : Trace) :
  vetted_requests getaddrinfo t requested t' ->
  http_log t' = (rev requested ++ http_log t)%list.
Proof.
  induction 1 as [t | t u parsed h t1 urls t' Hp Hs Hh Hpub _ IH]; [reflexivity|].
  rewrite IH. cbn [after_get http_log rev].
  rewrite (is_public_host_state _ _ _ _ Hpub), after_validation_http_log.
  now rewrite <- app_assoc.
Qed.

(** An allowing decision is the pair [(True, "")]. *)
Lemma allowed_decision (h : string) (t : Trace) :
  fst (host_decision getaddrinfo h t) = true ->
  _is_public_host getaddrinfo h t
  = (Return (true, ""), after_validation getaddrinfo h t).
Proof.
  intros Hd. rewrite is_public_host_returns. f_equal.
  pose proof (proj1 (decision_reason_empty_iff getaddrinfo h t) Hd) as Hr.
  destruct (host_decision getaddrinfo h t) as [b r]. cbn in Hd, Hr. now subst.
Qed.

(** A run of the loop that is entered in the state [t], which the
    validation of the host name of [current_url] has left: the requests
    are those of [vetted_requests], no more than the iterations; after
    the last of them the validator is called once more at most; a
    returned result is an error or the response with the chain extended
    by the URLs requested after the first. *)
Lemma redirect_loop_run (follow_redirects : bool) (max_redirects : Z)
    (result : FetchResult) (iterations : nat) :
  forall (current_url : string) (redirect_chain : list string) (t0 t : Trace)
         (parsed : urllib_parse.ParseResult) (h : string),
    urllib_parse.urlparse current_url = Some parsed ->
    str_in (urllib_parse.scheme parsed) ["http"; "https"] = true ->
    urllib_parse.hostname parsed = Some h ->
    _is_public_host getaddrinfo h t0 = (Return (true, ""), t) ->
    exists requested t_end,
      vetted_requests getaddrinfo t0 requested t_end
      /\ (snd (redirect_loop getaddrinfo session_get urljoin follow_redirects
                 max_redirects result iterations current_url redirect_chain t)
          = t_end
          \/ exists h',
              snd (redirect_loop getaddrinfo session_get urljoin follow_redirects
                     max_redirects result iterations current_url redirect_chain t)
              = after_validation getaddrinfo h' t_end)
      /\ (length requested <= iterations)%nat
      /\ (follow_redirects = false -> (length requested <= 1)%nat)
      /\ (requested = [] \/ exists rest, requested = current_url :: rest)
      /\ match fst (redirect_loop getaddrinfo session_get urljoin follow_redirects
                      max_redirects result iterations current_url redirect_chain t) with
         | Return r =>
             (exists e, r = set_error result e)
             \/ (exists response rest,
                    requested = current_url :: rest
                    /\ r = set_response result response (redirect_chain ++ rest)%list)
         | Raise _ => True
         end.
Proof.
  induction iterations as [|n IH]; intros cur chain t0 t parsed h Hp Hs Hh Hpub.
  - exists [], t0. cbn [redirect_loop mret M_ret fst snd length].
    split; [constructor|].
    split; [right; exists h; apply (is_public_host_state _ _ _ _ Hpub)|].
    repeat split; auto. left. eauto.
  - rewrite redirect_loop_step. cbv zeta.
    assert (Hone : vetted_requests getaddrinfo t0 [cur] (after_get t cur))
      by (econstructor; eauto; constructor).
    assert (Hleaf : forall (o : outcome FetchResult) (t' : Trace),
               (t' = after_get t cur
                \/ exists h', t' = after_validation getaddrinfo h' (after_get t cur)) ->
               match o with
               | Return r =>
                   (exists e, r = set_error result e)
                   \/ (exists response, r = set_response result response chain)
               | Raise _ => True
               end ->
               exists requested t_end,
                 vetted_requests getaddrinfo t0 requested t_end
                 /\ (snd (o, t') = t_end
                     \/ exists h', snd (o, t') = after_validation getaddrinfo h' t_end)
                 /\ (length requested <= S n)%nat
                 /\ (follow_redirects = false -> (length requested <= 1)%nat)
                 /\ (requested = [] \/ exists rest, requested = cur :: rest)
                 /\ match fst (o, t') with
                    | Return r =>
                        (exists e, r = set_error result e)
                        \/ (exists response rest,
                               requested = cur :: rest
                               /\ r = set_response result response (chain ++ rest)%list)
                    | Raise _ => True
                    end).
    { intros o t' Hstate Ho. exists [cur], (after_get t cur).
      cbn [snd fst length].
      split; [exact Hone|]. split; [exact Hstate|]. split; [lia|].
      split; [intros _; lia|]. split; [right; now exists []|].
      destruct o as [r|e]; [|exact I].
      destruct Ho as [He | [response ->]]; [now left|].
      right. exists response, []. now rewrite app_nil_r. }
    destruct (session_get t cur) as [e|response]; [apply Hleaf; auto|].
    destruct (negb follow_redirects || negb (requests.is_redirect response)) eqn:Hfinal.
    + destruct (urllib_parse.urlparse (requests.url response)) as [pf|];
        [|apply Hleaf; auto].
      destruct (urllib_parse.hostname pf) as [h'|].
      * apply Hleaf; [right; now exists h'|].
        destruct (fst (host_decision getaddrinfo h' (after_get t cur))); eauto.
      * apply Hleaf; [now left | eauto].
    + apply orb_false_iff in Hfinal as [Hfollow _].
      apply negb_false_iff in Hfollow.
      destruct (requests.headers_get "Location" (requests.headers response))
        as [[|c location]|]; [apply Hleaf; [now left | eauto] |
                              | apply Hleaf; [now left | eauto]].
      destruct (urljoin cur (String c location)) as [next|]; [|apply Hleaf; auto].
      destruct (urllib_parse.urlparse next) as [pn|] eqn:Hpn; [|apply Hleaf; auto].
      destruct (urllib_parse.hostname pn) as [h'|] eqn:Hh';
        [|apply Hleaf; [now left | eauto]].
      destruct (str_in (urllib_parse.scheme pn) ["http"; "https"]) eqn:Hs'; cbn [negb];
        [|apply Hleaf; [now left | eauto]].
      destruct (fst (host_decision getaddrinfo h' (after_get t cur))) eqn:Hd;
        [|apply Hleaf; [right; now exists h' | eauto]].
      destruct (IH next (chain ++ [next])%list (after_get t cur)
                  (after_validation getaddrinfo h' (after_get t cur)) pn h'
                  Hpn Hs' Hh' (allowed_decision _ _ Hd))
        as (requested & t_end & Hreq & Hstate & Hlen & _ & _ & Hres).
      exists (cur :: requested), t_end. cbn [length].
      split; [econstructor; eauto|]. split; [exact Hstate|]. split; [lia|].
      split; [intros Hff; congruence|]. split; [right; eauto|].
      destruct (fst (redirect_loop _ _ _ _ _ _ _ _ _ _)) as [r|e]; [|exact I].
      destruct Hres as [He | (resp & rest & -> & ->)]; [now left|].
      right. exists resp, (next :: rest). split; [reflexivity|].
      now rewrite <- app_assoc.
Qed.

(** [_validate_url] ends in the state it started in, or in the state
    that one call of the validator has left. *)
Lemma validate_url_state (raw_url : string) (t : Trace) :
  snd (_validate_url getaddrinfo raw_url t) = t
  \/ exists h, snd (_validate_url getaddrinfo raw_url t)
               = after_validation getaddrinfo h t.
Proof.
  rewrite validate_url_cases. cbv zeta.
  assert (Hstep : forall u parsed,
             snd (host_step getaddrinfo u parsed t) = t
             \/ exists h, snd (host_step getaddrinfo u parsed t)
                          = after_validation getaddrinfo h t).
  { intros u parsed. unfold host_step.
    destruct (urllib_parse.hostname parsed) as [h|]; [right; now exists h | now left]. }
  destruct (urllib_parse.urlparse _) as [parsed|]; [|now left].
  destruct (String.eqb _ "").
  - destruct (urllib_parse.urlparse _) as [parsed'|]; [apply Hstep | now left].
  - destruct (negb _); [now left | apply Hstep].
Qed.

(** The only exception that [_validate_url] lets through here is the
    [ValueError] of [urlparse]. *)
Lemma validate_url_raises (raw_url : string) (t t' : Trace) (e : exn) :
  _validate_url getaddrinfo raw_url t = (Raise e, t') -> e = ValueError.
Proof.
  rewrite validate_url_cases. cbv zeta.
  destruct (urllib_parse.urlparse _) as [parsed|]; [|now intros [= <- _]].
  destruct (String.eqb _ "").
  - destruct (urllib_parse.urlparse _) as [parsed'|]; [|now intros [= <- _]].
    unfold host_step. now destruct (urllib_parse.hostname parsed').
  - destruct (negb _); [discriminate|].
    unfold host_step. now destruct (urllib_parse.hostname parsed).
Qed.

(** The loop raises nothing but what [session.get] raised and the
    [ValueError] of [urlparse] and [urljoin]. *)
Lemma redirect_loop_raises (follow_redirects : bool) (max_redirects : Z)
    (result : FetchResult) (iterations : nat) :
  forall (current_url : string) (redirect_chain : list string) (t t' : Trace) (e : exn),
    redirect_loop getaddrinfo session_get urljoin follow_redirects max_redirects
      result iterations current_url redirect_chain t = (Raise e, t') ->
    e = ValueError \/ exists re, e = RequestsError re.
Proof.
  induction iterations as [|n IH]; intros cur chain t t' e; [discriminate|].
  rewrite redirect_loop_step. cbv zeta.
  destruct (session_get t cur) as [re|response]; [intros [= <- _]; eauto|].
  destruct (negb follow_redirects || negb (requests.is_redirect response)).
  - destruct (urllib_parse.urlparse _) as [pf|]; [|intros [= <- _]; auto].
    destruct (urllib_parse.hostname pf); discriminate.
  - destruct (requests.headers_get _ _) as [[|c location]|]; try discriminate.
    destruct (urljoin cur _) as [next|]; [|intros [= <- _]; auto].
    destruct (urllib_parse.urlparse next) as [pn|]; [|intros [= <- _]; auto].
    destruct (urllib_parse.hostname pn) as [h|]; [|discriminate].
    destruct (negb _); [discriminate|].
    destruct (fst (host_decision _ _ _)); [apply IH | discriminate].
Qed.

(** A run of [fetch_page], in one statement. *)
Lemma fetch_page_run (url : string) (timeout : Z) (follow_redirects : bool)
    (max_redirects : Z) (t0 : Trace) :
  exists requested t_end,
    vetted_requests getaddrinfo t0 requested t_end
    /\ (snd (fetch_page getaddrinfo session_get urljoin url timeout
               follow_redirects max_redirects t0) = t_end
        \/ exists h,
            snd (fetch_page getaddrinfo session_get urljoin url timeout
                   follow_redirects max_redirects t0)
            = after_validation getaddrinfo h t_end)
    /\ (length requested <= Z.to_nat (max_redirects + 1))%nat
    /\ (follow_redirects = false -> (length requested <= 1)%nat)
    /\ (requested = []
        \/ exists validated_url t1 rest,
            _validate_url getaddrinfo url t0 = (Return (inl validated_url), t1)
            /\ requested = validated_url :: rest)
    /\ match fst (fetch_page getaddrinfo session_get urljoin url timeout
                    follow_redirects max_redirects t0) with
       | Return r =>
           (exists e, r = failure url e)
           \/ (exists response first,
                  requested = first :: redirect_chain r
                  /\ r = success response (redirect_chain r))
       | Raise e => e = ValueError
       end.
Proof.
  unfold fetch_page. fold (initial_result url). unfold mbind, M_bind.
  pose proof (validate_url_state url t0) as Hstate0.
  destruct (_validate_url getaddrinfo url t0) as [[[u | reason] | e] t1] eqn:Hv;
    cbn [snd] in Hstate0.
  - destruct (validate_url_success _ _ _ _ _ Hv) as (u' & parsed & _ & Hp & Hs & Hstep).
    destruct (host_step_success _ _ _ _ _ _ Hstep) as [<- (h & Hh & Hpub)].
    destruct (redirect_loop_run follow_redirects max_redirects (initial_result url)
                (Z.to_nat (max_redirects + 1)) u [] t0 t1 parsed h Hp Hs Hh Hpub)
      as (requested & t_end & Hreq & Hstate & Hlen & Hone & Hfirst & Hres).
    pose proof (redirect_loop_raises follow_redirects max_redirects (initial_result url)
                  (Z.to_nat (max_redirects + 1)) u [] t1) as Hraise.
    exists requested, t_end. unfold try_except.
    destruct (redirect_loop _ _ _ _ _ _ _ _ _ _) as [[r | e] t2].
    + cbn [fst snd] in *. repeat split; auto.
      * destruct Hfirst as [-> | [rest ->]]; [now left | right; eauto].
      * destruct Hres as [[e ->] | (response & rest & -> & ->)];
          [left; now exists e|].
        right. exists response, u. now cbn.
    + destruct (Hraise t2 e eq_refl) as [-> | [re ->]].
      * cbn [fst snd] in *. repeat split; auto.
        destruct Hfirst as [-> | [rest ->]]; [now left | right; eauto].
      * unfold except_requests, mret, M_ret. cbn [fst snd] in *.
        rewrite set_error_initial. repeat split; auto.
        -- destruct Hfirst as [-> | [rest ->]]; [now left | right; eauto].
        -- left. eauto.
  - exists [], t0. cbn [fst snd mret M_ret length].
    split; [constructor|]. split; [exact Hstate0|].
    repeat split; auto; try lia. left. now exists reason.
  - exists [], t0. cbn [fst snd length].
    split; [constructor|]. split; [exact Hstate0|].
    repeat split; auto; try lia.
    eapply validate_url_raises. exact Hv.
Qed.

(** X6.  The whole run of [fetch_page] is a sequence of vetted requests.
    Every URL that is passed to [session.get] is an [http] or [https] URL
    whose host name the validator allowed in the state that the run had
    reached, and the request is sent in the very state that this
    validation has left; after the last request the validator is called
    at most once more, and nothing else is asked of the resolver or of
    the HTTP client.  The first request goes to the URL that
    [_validate_url] returned, and none is sent when the URL is
    rejected. *)
Theorem X6_fetch_requests_vetted_urls_only (url : string) (timeout : Z)
    (follow_redirects : bool) (max_redirects : Z) (t0 : Trace) :
  exists requested t_end,
    vetted_requests getaddrinfo t0 requested t_end
    /\ (snd (fetch_page getaddrinfo session_get urljoin url timeout
               follow_redirects max_redirects t0) = t_end
        \/ exists h,
            snd (fetch_page getaddrinfo session_get urljoin url timeout
                   follow_redirects max_redirects t0)
            = snd (_is_public_host getaddrinfo h t_end))
    /\ http_log (snd (fetch_page getaddrinfo session_get urljoin url timeout
                        follow_redirects max_redirects t0))
       = (rev requested ++ http_log t0)%list
    /\ (requested = []
        \/ exists validated_url t1 rest,
            _validate_url getaddrinfo url t0 = (Return (inl validated_url), t1)
            /\ requested = validated_url :: rest).
Proof.
  destruct (fetch_page_run url timeout follow_redirects max_redirects t0)
    as (requested & t_end & Hreq & Hstate & _ & _ & Hfirst & _).
  exists requested, t_end. split; [exact Hreq|]. split; [exact Hstate|].
  split; [|exact Hfirst].
  rewrite <- (vetted_requests_http_log _ _ _ Hreq).
  destruct Hstate as [-> | [h ->]]; [reflexivity | apply after_validation_http_log].
Qed.

(** X7.  [fetch_page] sends at most [max_redirects + 1] requests, one at
    most when redirects are not followed, and none when [max_redirects]
    is negative. *)
Theorem X7_fetch_request_bound (url : string) (timeout : Z)
    (follow_redirects : bool) (max_redirects : Z) (t0 : Trace) :
  let t' := snd (fetch_page getaddrinfo session_get urljoin url timeout
                   follow_redirects max_redirects t0) in
  (length (http_log t') <= length (http_log t0) + Z.to_nat (max_redirects + 1))%nat
  /\ (follow_redirects = false ->
      (length (http_log t') <= length (http_log t0) + 1)%nat)
  /\ (max_redirects < 0 -> http_log t' = http_log t0).
Proof.
  destruct (fetch_page_run url timeout follow_redirects max_redirects t0)
    as (requested & t_end & Hreq & Hstate & Hlen & Hone & _ & _).
  assert (Hlog : http_log (snd (fetch_page getaddrinfo session_get urljoin url timeout
                                  follow_redirects max_redirects t0))
                 = (rev requested ++ http_log t0)%list).
  { rewrite <- (vetted_requests_http_log _ _ _ Hreq).
    destruct Hstate as [-> | [h ->]]; [reflexivity | apply after_validation_http_log]. }
  cbv zeta. rewrite Hlog, length_app, length_rev. split; [lia|]. split.
  - intros Hf. specialize (Hone Hf). lia.
  - intros Hneg. replace (Z.to_nat (max_redirects + 1)) with 0%nat in Hlen by lia.
    destruct requested; [reflexivity | cbn in Hlen; lia].
Qed.

(** X8.  [fetch_page] lets no exception of [requests] through.  A result
    with an error is the initial dictionary with that error: the URL as
    given, no status, no content, no headers and an empty chain.  A
    result without error carries the response, and its chain has at most
    [max_redirects] entries. *)
Theorem X8_fetch_result_shape (url : string) (timeout : Z)
    (follow_redirects : bool) (max_redirects : Z) (t0 : Trace) :
  match fst (fetch_page getaddrinfo session_get urljoin url timeout
               follow_redirects max_redirects t0) with
  | Return r =>
      match error r with
      | Some e => r = failure url e
      | None =>
          (exists response, r = success response (redirect_chain r))
          /\ Z.of_nat (length (redirect_chain r)) <= max_redirects
      end
  | Raise e => forall re, e <> RequestsError re
  end.
Proof.
  destruct (fetch_page_run url timeout follow_redirects max_redirects t0)
    as (requested & t_end & _ & _ & Hlen & _ & _ & Hres).
  destruct (fst (fetch_page _ _ _ _ _ _ _ _)) as [r | e];
    [|subst e; discriminate].
  destruct Hres as [[e ->] | (response & first & Hv & Hr)]; [reflexivity|].
  rewrite Hr. cbn [error success redirect_chain].
  split; [now exists response|].
  rewrite Hv in Hlen. cbn [length] in Hlen.
  rewrite Hr in Hlen. cbn [success redirect_chain] in Hlen. lia.
Qed.

(** X9.  In a result without error, [redirect_chain] is the list of the
    URLs that were requested after the first one, in the order of the
    requests: the run is the sequence of vetted requests for the URL
    that [_validate_url] returned and then for the entries of the chain,
    each asked for in the state in which the validator had just allowed
    its host name. *)
Theorem X9_fetch_chain_is_request_log (url : string) (timeout : Z)
    (follow_redirects : bool) (max_redirects : Z) (t0 : Trace)
    (r : FetchResult) (t' : Trace) :
  fetch_page getaddrinfo session_get urljoin url timeout follow_redirects
    max_redirects t0 = (Return r, t') ->
  error r = None ->
  exists validated_url t1 t_end,
    _validate_url getaddrinfo url t0 = (Return (inl validated_url), t1)
    /\ vetted_requests getaddrinfo t0 (validated_url :: redirect_chain r) t_end
    /\ (t' = t_end \/ exists h, t' = snd (_is_public_host getaddrinfo h t_end))
    /\ http_log t' = (rev (validated_url :: redirect_chain r) ++ http_log t0)%list
    /\ (follow_redirects = false -> redirect_chain r = []).
Proof.
  intros Hrun Herr.
  destruct (fetch_page_run url timeout follow_redirects max_redirects t0)
    as (requested & t_end & Hreq & Hstate & _ & Hone & Hfirst & Hres).
  rewrite Hrun in Hstate, Hres. cbn [fst snd] in Hstate, Hres.
  destruct Hres as [[e ->] | (response & first & Hv & _)]; [discriminate|].
  destruct Hfirst as [-> | (validated_url & t1 & rest & Hval & Hv')]; [discriminate|].
  rewrite Hv in Hv'. injection Hv' as -> _.
  exists validated_url, t1, t_end. rewrite Hv in Hreq, Hone.
  split; [exact Hval|]. split; [exact Hreq|]. split; [exact Hstate|]. split.
  - rewrite <- (vetted_requests_http_log _ _ _ Hreq).
    destruct Hstate as [-> | [h ->]]; [reflexivity | apply after_validation_http_log].
  - intros Hf. specialize (Hone Hf). cbn [length] in Hone.
    destruct (redirect_chain r); [reflexivity | cbn in Hone; lia].
Qed.

(** X10.  An exception of [session.get] on any hop becomes the error of
    the result, and nothing is asked after it: no status, no content,
    and the text of the first [except] clause that the class of the
    exception matches.  A [ConnectTimeout], which is both a
    [ConnectionError] and a [Timeout], is reported as a time-out; an
    [SSLError] and a [ProxyError], which are [ConnectionError]s, as an
    SSL error and as a connection error; every class that is none of
    these, as a failed request. *)
Theorem X10_request_exception_becomes_error (url : string) (timeout : Z)
    (max_redirects : Z) (t0 : Trace) (validated_url : string) (t1 : Trace)
    (chain : list string) (last_url : string) (t2 : Trace)
    (e : requests.RequestException) :
  _validate_url getaddrinfo url t0 = (Return (inl validated_url), t1) ->
  public_hops getaddrinfo session_get urljoin t1 validated_url chain last_url t2 ->
  Z.of_nat (length chain) <= max_redirects ->
  session_get t2 last_url = inl e ->
  exists result msg,
    fetch_page getaddrinfo session_get urljoin url timeout true max_redirects t0
    = (Return result, after_get t2 last_url)
    /\ error result = Some msg
    /\ status_code result = None
    /\ content result = None
    /\ (requests.exception_class e
        ∈ [requests.Timeout; requests.ConnectTimeout; requests.ReadTimeout] ->
        msg = "Request timed out after " +:+ pretty timeout +:+ " seconds")
    /\ (requests.exception_class e = requests.TooManyRedirects ->
        msg = "Too many redirects (max " +:+ pretty max_redirects +:+ ")")
    /\ (requests.exception_class e = requests.SSLError ->
        msg = "SSL error: " +:+ requests.str e)
    /\ (requests.exception_class e ∈ [requests.ConnectionError; requests.ProxyError] ->
        msg = "Connection error: " +:+ requests.str e)
    /\ (requests.exception_class e
        ∉ [requests.Timeout; requests.ConnectTimeout; requests.ReadTimeout;
           requests.TooManyRedirects; requests.SSLError;
           requests.ConnectionError; requests.ProxyError] ->
        msg = "Request failed: " +:+ requests.str e).
Proof.
  intros Hval Hhops Hbudget Hget.
  eexists _, _. split.
  - rewrite (fetch_page_validated _ _ _ _ _ _ _ _ _ _ Hval).
    replace (Z.to_nat (max_redirects + 1))
      with (length chain + S (Z.to_nat (max_redirects - Z.of_nat (length chain))))%nat
      by lia.
    unfold try_except.
    rewrite (redirect_loop_hops _ _ _ _ _ _ _ _ _ _ Hhops), redirect_loop_step.
    cbv zeta. rewrite Hget. unfold except_requests, mret, M_ret.
    rewrite set_error_initial. reflexivity.
  - split; [reflexivity|]. split; [reflexivity|]. split; [reflexivity|].
    unfold requests.isinstance.
    destruct (requests.exception_class e); cbn;
      repeat split; intros Hc;
      rewrite ?elem_of_cons, ?not_elem_of_cons in Hc;
      first [reflexivity | discriminate | exfalso; intuition congruence
            | exfalso; rewrite ?elem_of_nil in Hc; intuition congruence].
Qed.

End FetchRuns.

Lemma X7_witness :
  let t' := snd (fetch_page mock_getaddrinfo server_one_hop mock_urljoin
                   "example.com/a" 30 false (-1) no_calls) in
  (length (http_log t') <= length (http_log no_calls) + 1)%nat
  /\ http_log t' = http_log no_calls.
Proof.
  destruct (X7_fetch_request_bound mock_getaddrinfo server_one_hop mock_urljoin
              "example.com/a" 30 false (-1) no_calls) as (_ & Hone & Hnone).
  split; [apply Hone; reflexivity | apply Hnone; lia].
Defined.

Lemma X9_witness :
  exists validated_url t1 t_end,
    _validate_url mock_getaddrinfo "example.com/a" no_calls
    = (Return (inl validated_url), t1)
    /\ vetted_requests mock_getaddrinfo no_calls
         (validated_url
          :: redirect_chain (success (page "https://example.com/b" eq_refl)
                               ["https://example.com/b"])) t_end
    /\ (after_dns
          (after_get
             (after_dns
                (after_get (after_dns no_calls "example.com") "https://example.com/a")
                "example.com") "https://example.com/b") "example.com"
        = t_end
        \/ exists h,
            after_dns
              (after_get
                 (after_dns
                    (after_get (after_dns no_calls "example.com")
                       "https://example.com/a")
                    "example.com") "https://example.com/b") "example.com"
            = snd (_is_public_host mock_getaddrinfo h t_end))
    /\ http_log
         (after_dns
            (after_get
               (after_dns
                  (after_get (after_dns no_calls "example.com") "https://example.com/a")
                  "example.com") "https://example.com/b") "example.com")
       = (rev (validated_url
               :: redirect_chain (success (page "https://example.com/b" eq_refl)
                                    ["https://example.com/b"]))
          ++ http_log no_calls)%list
    /\ (true = false ->
        redirect_chain (success (page "https://example.com/b" eq_refl)
                          ["https://example.com/b"]) = []).
Proof.
  apply (X9_fetch_chain_is_request_log mock_getaddrinfo server_one_hop mock_urljoin
           "example.com/a" 30 true 1 no_calls);
    vm_compute; reflexivity.
Defined.

(** The hop of [server_timeout_after_hop]. *)
Lemma timeout_after_hop_chain :
  public_hops mock_getaddrinfo server_timeout_after_hop mock_urljoin
    (after_dns no_calls "example.com") "https://example.com/a"
    ["https://example.com/b"] "https://example.com/b"
    (after_dns (after_get (after_dns no_calls "example.com") "https://example.com/a")
       "example.com").
Proof.
  eapply public_hops_cons; [|apply public_hops_nil].
  eapply (public_hop_intro _ _ _ _ _ _ _
            (redirect_to "https://example.com/a" "https://example.com/b" eq_refl)
            "https://example.com/b"
            {| urllib_parse.scheme := "https"; urllib_parse.netloc := "example.com" |}
            "example.com" "");
    try reflexivity.
  discriminate.
Defined.

Lemma X10_witness :
  exists result,
    fetch_page mock_getaddrinfo server_timeout_after_hop mock_urljoin
      "example.com/a" 30 true 5 no_calls
    = (Return result,
       after_get
         (after_dns (after_get (after_dns no_calls "example.com")
                       "https://example.com/a")
            "example.com") "https://example.com/b")
    /\ error result = Some ("Request timed out after " +:+ pretty 30 +:+ " seconds")
    /\ status_code result = None
    /\ content result = None.
Proof.
  destruct (X10_request_exception_becomes_error mock_getaddrinfo
              server_timeout_after_hop mock_urljoin "example.com/a" 30 5 no_calls
              "https://example.com/a" (after_dns no_calls "example.com")
              ["https://example.com/b"] "https://example.com/b" _
              {| requests.exception_class := requests.ConnectTimeout;
                 requests.str := "HTTPSConnectionPool(host='example.com', port=443)" |}
              eq_refl timeout_after_hop_chain ltac:(cbn; lia) eq_refl)
    as (result & msg & Hrun & Herr & Hstatus & Hcontent & Htimeout & _).
  exists result. split; [exact Hrun|]. split; [|now split].
  rewrite Herr. f_equal. apply Htimeout.
  cbn [requests.exception_class]. rewrite !elem_of_cons. auto.
Defined.

(** ** The route guard over a session *)

(** One request keeps the cache sound. *)
Lemma route_handler_sound (getaddrinfo : Trace -> string -> AddrInfo)
    (req_url : string) (host_cache host_cache' : gmap string (bool * string))
    (t t' : Trace) (action : RouteAction) :
  cache_sound getaddrinfo host_cache ->
  route_handler getaddrinfo req_url host_cache t = (Return (action, host_cache'), t') ->
  cache_sound getaddrinfo host_cache'.
Proof.
  intros Hsound. rewrite route_handler_cases.
  destruct (urllib_parse.urlparse req_url) as [parsed_req|] eqn:Hp; [|discriminate].
  destruct (str_in (urllib_parse.scheme parsed_req) ["data"; "blob"; "about"]) eqn:Hl.
  { now intros [= <- <- <-]. }
  destruct (urllib_parse.hostname parsed_req) as [h|] eqn:Hh;
    [|now intros [= <- <- <-]].
  destruct (str_in (urllib_parse.scheme parsed_req) ["http"; "https"]) eqn:Hs;
    cbn [negb]; [|now intros [= <- <- <-]].
  destruct (host_cache !! h) as [cached|] eqn:Hc.
  - now intros [= <- <- <-].
  - cbv zeta. intros [= <- <- <-].
    intros h' cached'. destruct (decide (h' = h)) as [-> | Hne].
    + rewrite lookup_insert_eq. intros [= <-]. now exists t.
    + rewrite lookup_insert_ne by congruence. apply Hsound.
Qed.

(** An [http] or [https] request, or one of an unknown scheme, whose host
    is a literal address outside the public space is aborted by any
    sound cache, without a DNS call and without a new entry. *)
Lemma route_handler_literal (getaddrinfo : Trace -> string -> AddrInfo)
    (req_url : string) (parsed_req : urllib_parse.ParseResult) (h : string)
    (ip : Address) (host_cache : gmap string (bool * string)) (t : Trace) :
  cache_sound getaddrinfo host_cache ->
  urllib_parse.urlparse req_url = Some parsed_req ->
  str_in (urllib_parse.scheme parsed_req) ["data"; "blob"; "about"] = false ->
  urllib_parse.hostname parsed_req = Some h ->
  ip_address h = Some ip ->
  _is_public_ip ip = false ->
  exists host_cache',
    route_handler getaddrinfo req_url host_cache t = (Return (abort, host_cache'), t).
Proof.
  intros Hsound Hp Hl Hh Hip Hpub.
  assert (Hdec : forall t0, host_decision getaddrinfo h t0
                            = (false, "Blocked non-public IP: " +:+ h)
                            /\ after_validation getaddrinfo h t0 = t0).
  { intros t0. unfold host_decision, after_validation.
    rewrite is_public_host_cases.
    destruct (String.eqb_spec h "") as [-> | _].
    - rewrite ip_address_empty in Hip. discriminate.
    - rewrite Hip, Hpub. now split. }
  rewrite route_handler_cases, Hp, Hl, Hh.
  destruct (negb _); [now exists host_cache|].
  destruct (host_cache !! h) as [cached|] eqn:Hc.
  - destruct (Hsound h cached Hc) as [t0 ->].
    rewrite (proj1 (Hdec t0)). now exists host_cache.
  - cbv zeta. rewrite (proj1 (Hdec t)), (proj2 (Hdec t)).
    now eexists.
Qed.

(** The session, request by request. *)
Lemma handle_requests_sound (getaddrinfo : Trace -> string -> AddrInfo)
    (req_urls : list string) :
  forall (host_cache host_cache' : gmap string (bool * string)) (t t' : Trace)
         (actions : list RouteAction),
    cache_sound getaddrinfo host_cache ->
    handle_requests getaddrinfo req_urls host_cache t
    = (Return (actions, host_cache'), t') ->
    cache_sound getaddrinfo host_cache'
    /\ length actions = length req_urls
    /\ (forall (i : nat) req_url parsed_req h ip,
           req_urls !! i = Some req_url ->
           urllib_parse.urlparse req_url = Some parsed_req ->
           str_in (urllib_parse.scheme parsed_req) ["data"; "blob"; "about"] = false ->
           urllib_parse.hostname parsed_req = Some h ->
           ip_address h = Some ip ->
           _is_public_ip ip = false ->
           actions !! i = Some abort).
Proof.
  induction req_urls as [|req_url rest IH];
    intros host_cache host_cache' t t' actions Hsound.
  - intros [= <- <- <-]. split; [exact Hsound|]. split; [reflexivity|].
    intros i; intros; now rewrite lookup_nil in *.
  - rewrite handle_requests_cons.
    destruct (route_handler getaddrinfo req_url host_cache t)
      as [[[action host_cache1] | e] t1] eqn:Hone; [|discriminate].
    destruct (handle_requests getaddrinfo rest host_cache1 t1)
      as [[[actions' host_cache2] | e] t2] eqn:Hrest; [|discriminate].
    intros [= <- <- <-].
    pose proof (route_handler_sound _ _ _ _ _ _ _ Hsound Hone) as Hsound1.
    destruct (IH _ _ _ _ _ Hsound1 Hrest) as (Hsound2 & Hlen & Hlit).
    split; [exact Hsound2|]. split; [cbn; now rewrite Hlen|].
    intros [|i] u parsed_req h ip; cbn.
    + intros [= <-] Hp Hl Hh Hip Hpub.
      destruct (route_handler_literal getaddrinfo _ _ _ _ _ t
                  Hsound Hp Hl Hh Hip Hpub) as [hc Hrun].
      rewrite Hrun in Hone. now injection Hone as <- _ _.
    + apply Hlit.
Qed.

Lemma cache_sound_empty (getaddrinfo : Trace -> string -> AddrInfo) :
  cache_sound getaddrinfo ∅.
Proof. intros h cached Hc. now rewrite lookup_empty in Hc. Qed.

(** X12.  A request whose host is a literal address outside the public
    space is aborted wherever it comes in the session and whatever the
    cache holds, provided the cache is sound: no earlier request can
    have stored a tuple that would let it through.  Only the schemes
    [data], [blob] and [about], which the guard lets through unseen, are
    excepted. *)
Theorem X12_gate_aborts_literal_non_public_hosts
    (getaddrinfo : Trace -> string -> AddrInfo) (req_urls : list string)
    (host_cache host_cache' : gmap string (bool * string)) (t t' : Trace)
    (actions : list RouteAction) (i : nat) (req_url : string)
    (parsed_req : urllib_parse.ParseResult) (h : string) (ip : Address) :
  cache_sound getaddrinfo host_cache ->
  handle_requests getaddrinfo req_urls host_cache t
  = (Return (actions, host_cache'), t') ->
  req_urls !! i = Some req_url ->
  urllib_parse.urlparse req_url = Some parsed_req ->
  str_in (urllib_parse.scheme parsed_req) ["data"; "blob"; "about"] = false ->
  urllib_parse.hostname parsed_req = Some h ->
  ip_address h = Some ip ->
  _is_public_ip ip = false ->
  actions !! i = Some abort.
Proof.
  intros Hsound Hrun.
  destruct (handle_requests_sound _ _ _ _ _ _ _ Hsound Hrun) as (_ & _ & Hlit).
  apply Hlit.
Qed.

(** One request either leaves the cache and the trace as they are, or
    stores the decision for a host name that had no entry. *)
Lemma route_handler_growth (getaddrinfo : Trace -> string -> AddrInfo)
    (req_url : string) (host_cache host_cache' : gmap string (bool * string))
    (t t' : Trace) (action : RouteAction) :
  route_handler getaddrinfo req_url host_cache t = (Return (action, host_cache'), t') ->
  (host_cache' = host_cache /\ t' = t)
  \/ exists h, host_cache !! h = None
               /\ host_cache' = <[h := host_decision getaddrinfo h t]> host_cache
               /\ (t' = t \/ t' = after_dns t h).
Proof.
  rewrite route_handler_cases.
  destruct (urllib_parse.urlparse req_url) as [p|]; [|discriminate].
  destruct (str_in _ ["data"; "blob"; "about"]); [intros [= _ <- <-]; now left|].
  destruct (urllib_parse.hostname p) as [h|]; [|intros [= _ <- <-]; now left].
  destruct (negb _); [intros [= _ <- <-]; now left|].
  destruct (host_cache !! h) as [cached|] eqn:Hc; [intros [= _ <- <-]; now left|].
  cbv zeta. intros [= _ <- <-]. right. exists h. split; [exact Hc|].
  split; [reflexivity | apply after_validation_trace].
Qed.

Lemma handle_requests_growth (getaddrinfo : Trace -> string -> AddrInfo)
    (req_urls : list string) :
  forall (host_cache host_cache' : gmap string (bool * string)) (t t' : Trace)
         (actions : list RouteAction),
    handle_requests getaddrinfo req_urls host_cache t
    = (Return (actions, host_cache'), t') ->
    host_cache ⊆ host_cache'
    /\ http_log t' = http_log t
    /\ exists new_calls,
        dns_log t' = (new_calls ++ dns_log t)%list
        /\ NoDup new_calls
        /\ forall h, h ∈ new_calls ->
                     host_cache !! h = None /\ is_Some (host_cache' !! h).
Proof.
  induction req_urls as [|req_url rest IH];
    intros host_cache host_cache' t t' actions.
  - intros [= _ <- <-]. split; [reflexivity|]. split; [reflexivity|].
    exists []. split; [reflexivity|]. split; [constructor|].
    intros h Hin. now apply elem_of_nil in Hin.
  - rewrite handle_requests_cons.
    destruct (route_handler getaddrinfo req_url host_cache t)
      as [[[action host_cache1] | e] t1] eqn:Hone; [|discriminate].
    destruct (handle_requests getaddrinfo rest host_cache1 t1)
      as [[[actions' host_cache2] | e] t2] eqn:Hrest; [|discriminate].
    intros [= _ <- <-].
    destruct (IH _ _ _ _ _ Hrest) as (Hsub & Hhttp & new_calls & Hdns & Hnodup & Hnew).
    destruct (route_handler_growth _ _ _ _ _ _ _ Hone)
      as [[-> ->] | (h & Hnone & -> & Ht1)].
    { split; [exact Hsub|]. split; [exact Hhttp|]. now exists new_calls. }
    assert (Hsub0 : host_cache ⊆ <[h := host_decision getaddrinfo h t]> host_cache)
      by now apply insert_subseteq.
    assert (Hold : forall h', h' ∈ new_calls ->
                              host_cache !! h' = None /\ is_Some (host_cache2 !! h')).
    { intros h' Hin. destruct (Hnew h' Hin) as [Hn Hs]. split; [|exact Hs].
      eapply lookup_weaken_None; [exact Hn | exact Hsub0]. }
    split; [now transitivity (<[h := host_decision getaddrinfo h t]> host_cache)|].
    destruct Ht1 as [-> | ->].
    { split; [exact Hhttp|]. now exists new_calls. }
    split; [exact Hhttp|].
    exists (new_calls ++ [h])%list. split; [|split].
    + rewrite Hdns. cbn [after_dns dns_log]. now rewrite <- app_assoc.
    + apply NoDup_app. split; [exact Hnodup|]. split; [|apply NoDup_singleton].
      intros h' Hin Hin'. apply list_elem_of_singleton in Hin' as ->.
      destruct (Hnew h Hin) as [Hn _]. now rewrite lookup_insert_eq in Hn.
    + intros h' Hin. apply elem_of_app in Hin as [Hin | Hin]; [now apply Hold|].
      apply list_elem_of_singleton in Hin as ->. split; [exact Hnone|].
      exists (host_decision getaddrinfo h t).
      eapply lookup_weaken; [apply lookup_insert_eq | exact Hsub].
Qed.

(** X13.  The cache only grows during a session.  An entry is never
    changed or removed once it is stored, the guard itself sends no HTTP
    request, and each of its DNS queries is for a host name that had no
    entry when the session started, is made once, and leaves an entry. *)
Theorem X13_gate_cache_only_grows (getaddrinfo : Trace -> string -> AddrInfo)
    (req_urls : list string) (host_cache host_cache' : gmap string (bool * string))
    (t t' : Trace) (actions : list RouteAction) :
  handle_requests getaddrinfo req_urls host_cache t
  = (Return (actions, host_cache'), t') ->
  (forall h cached, host_cache !! h = Some cached -> host_cache' !! h = Some cached)
  /\ http_log t' = http_log t
  /\ exists new_calls,
      dns_log t' = (new_calls ++ dns_log t)%list
      /\ NoDup new_calls
      /\ forall h, h ∈ new_calls ->
                   host_cache !! h = None /\ is_Some (host_cache' !! h).
Proof.
  intros Hrun.
  destruct (handle_requests_growth _ _ _ _ _ _ _ Hrun) as (Hsub & Hhttp & Hcalls).
  split; [|now split].
  intros h cached Hc. eapply lookup_weaken; [exact Hc | exact Hsub].
Qed.

(** One request leaves the cache and the state as they are, or stores
    the decision that the validator makes now, for a host name that had
    no entry. *)
Lemma route_handler_origin (getaddrinfo : Trace -> string -> AddrInfo)
    (req_url : string) (host_cache host_cache' : gmap string (bool * string))
    (t t' : Trace) (action : RouteAction) :
  route_handler getaddrinfo req_url host_cache t = (Return (action, host_cache'), t') ->
  (host_cache' = host_cache /\ t' = t)
  \/ exists h, host_cache !! h = None
               /\ host_cache' = <[h := host_decision getaddrinfo h t]> host_cache
               /\ t' = after_validation getaddrinfo h t.
Proof.
  rewrite route_handler_cases.
  destruct (urllib_parse.urlparse req_url) as [p|]; [|discriminate].
  destruct (str_in _ ["data"; "blob"; "about"]); [intros [= _ <- <-]; now left|].
  destruct (urllib_parse.hostname p) as [h|]; [|intros [= _ <- <-]; now left].
  destruct (negb _); [intros [= _ <- <-]; now left|].
  destruct (host_cache !! h) as [cached|] eqn:Hc; [intros [= _ <- <-]; now left|].
  cbv zeta. intros [= _ <- <-]. right. now exists h.
Qed.

(** A request that is let through is local, or its host name has an
    allowing entry in the cache after the request. *)
Lemma route_handler_continue (getaddrinfo : Trace -> string -> AddrInfo)
    (req_url : string) (host_cache host_cache' : gmap string (bool * string))
    (t t' : Trace) :
  route_handler getaddrinfo req_url host_cache t
  = (Return (continue_, host_cache'), t') ->
  exists parsed_req,
    urllib_parse.urlparse req_url = Some parsed_req
    /\ (str_in (urllib_parse.scheme parsed_req) ["data"; "blob"; "about"] = true
        \/ str_in (urllib_parse.scheme parsed_req) ["http"; "https"] = true
           /\ exists h reason, urllib_parse.hostname parsed_req = Some h
                               /\ host_cache' !! h = Some (true, reason)).
Proof.
  rewrite route_handler_cases.
  destruct (urllib_parse.urlparse req_url) as [p|]; [|discriminate].
  intros Hrun. exists p. split; [reflexivity|]. revert Hrun.
  destruct (str_in _ ["data"; "blob"; "about"]); [now left|].
  destruct (urllib_parse.hostname p) as [h|]; [|discriminate].
  destruct (str_in (urllib_parse.scheme p) ["http"; "https"]); cbn [negb];
    [|discriminate].
  intros Hrun. right. split; [reflexivity|]. revert Hrun.
  destruct (host_cache !! h) as [[[] reason]|] eqn:Hc; try discriminate.
  - intros [= <- _]. now exists h, reason.
  - cbv zeta.
    destruct (host_decision getaddrinfo h t) as [[] reason]; [|discriminate].
    intros [= <- _]. exists h, reason. split; [reflexivity|]. apply lookup_insert_eq.
Qed.

Lemma session_state_0 (getaddrinfo : Trace -> string -> AddrInfo)
    (req_urls : list string) (host_cache : gmap string (bool * string)) (t : Trace) :
  session_state getaddrinfo req_urls host_cache t 0 = t.
Proof. reflexivity. Qed.

Lemma session_state_S (getaddrinfo : Trace -> string -> AddrInfo)
    (req_url : string) (rest : list string)
    (host_cache host_cache1 : gmap string (bool * string)) (t t1 : Trace)
    (action : RouteAction) (j : nat) :
  route_handler getaddrinfo req_url host_cache t = (Return (action, host_cache1), t1) ->
  session_state getaddrinfo (req_url :: rest) host_cache t (S j)
  = session_state getaddrinfo rest host_cache1 t1 j.
Proof.
  intros Hone. unfold session_state. cbn [take].
  rewrite handle_requests_cons, Hone.
  now destruct (handle_requests getaddrinfo (take j rest) host_cache1 t1)
    as [[[actions c] | e] t2].
Qed.

(** An allowing entry of the cache at the end of a session was there at
    the start, or is the answer of the validator in a state of the
    session. *)
Lemma handle_requests_origin (getaddrinfo : Trace -> string -> AddrInfo)
    (req_urls : list string) :
  forall (host_cache host_cache' : gmap string (bool * string)) (t t' : Trace)
         (actions : list RouteAction),
    handle_requests getaddrinfo req_urls host_cache t
    = (Return (actions, host_cache'), t') ->
    length actions = length req_urls
    /\ forall (i : nat) req_url,
        req_urls !! i = Some req_url ->
        actions !! i = Some continue_ ->
        exists parsed_req,
          urllib_parse.urlparse req_url = Some parsed_req
          /\ (str_in (urllib_parse.scheme parsed_req) ["data"; "blob"; "about"] = true
              \/ str_in (urllib_parse.scheme parsed_req) ["http"; "https"] = true
                 /\ exists h,
                     urllib_parse.hostname parsed_req = Some h
                     /\ ((exists reason, host_cache !! h = Some (true, reason))
                         \/ exists j,
                             (j <= i)%nat
                             /\ _is_public_host getaddrinfo h
                                  (session_state getaddrinfo req_urls host_cache t j)
                                = (Return (true, ""),
                                   session_state getaddrinfo req_urls host_cache t
                                     (S j)))).
Proof.
  induction req_urls as [|req_url rest IH];
    intros host_cache host_cache' t t' actions.
  - intros [= <- _ _]. split; [reflexivity|]. intros i u Hi. now rewrite lookup_nil in Hi.
  - rewrite handle_requests_cons.
    destruct (route_handler getaddrinfo req_url host_cache t)
      as [[[action host_cache1] | e] t1] eqn:Hone; [|discriminate].
    destruct (handle_requests getaddrinfo rest host_cache1 t1)
      as [[[actions' host_cache2] | e] t2] eqn:Hrest; [|discriminate].
    intros [= <- _ _].
    destruct (IH _ _ _ _ _ Hrest) as [Hlen Hgo].
    split; [cbn; now rewrite Hlen|].
    assert (Hentry : forall h reason,
               host_cache1 !! h = Some (true, reason) ->
               (exists reason', host_cache !! h = Some (true, reason'))
               \/ _is_public_host getaddrinfo h
                    (session_state getaddrinfo (req_url :: rest) host_cache t 0)
                  = (Return (true, ""),
                     session_state getaddrinfo (req_url :: rest) host_cache t 1)).
    { intros h reason Hc.
      rewrite (session_state_S _ _ rest _ _ _ _ _ 0 Hone), !session_state_0.
      destruct (route_handler_origin _ _ _ _ _ _ _ Hone)
        as [[-> ->] | (h0 & Hnone & -> & ->)]; [left; eauto|].
      destruct (decide (h0 = h)) as [-> | Hne].
      - rewrite lookup_insert_eq in Hc. injection Hc as Hd. right.
        rewrite is_public_host_returns. f_equal.
        pose proof (proj1 (decision_reason_empty_iff getaddrinfo h t)) as Hr.
        rewrite Hd in Hr |- *. cbn [fst snd] in Hr. now rewrite (Hr eq_refl).
      - rewrite lookup_insert_ne in Hc by exact Hne. left. eauto. }
    intros [|i] u; cbn [lookup list_lookup].
    + intros [= <-] [= ->].
      destruct (route_handler_continue _ _ _ _ _ _ Hone)
        as (parsed_req & Hp & [Hl | (Hs & h & reason & Hh & Hc)]);
        exists parsed_req; (split; [exact Hp|]); [now left|].
      right. split; [exact Hs|]. exists h. split; [exact Hh|].
      destruct (Hentry h reason Hc) as [Hold | Hnew]; [now left|].
      right. exists 0%nat. split; [lia | exact Hnew].
    + intros Hi Ha.
      destruct (Hgo i u Hi Ha) as (parsed_req & Hp & [Hl | (Hs & h & Hh & Hfrom)]);
        exists parsed_req; (split; [exact Hp|]); [now left|].
      right. split; [exact Hs|]. exists h. split; [exact Hh|].
      destruct Hfrom as [[reason Hc] | (j & Hj & Hrun)].
      * destruct (Hentry h reason Hc) as [Hold | Hnew]; [now left|].
        right. exists 0%nat. split; [lia | exact Hnew].
      * right. exists (S j). split; [lia|].
        now rewrite !(session_state_S _ _ rest _ _ _ _ _ _ Hone).
Qed.

(** X11.  What the route guard lets through.  In a session that
    returns, every request has its action, and a request is continued
    only if its scheme is [data], [blob] or [about], or if it is an
    [http] or [https] URL with a host name for which the cache held an
    allowing entry when the session started, or for which the validator
    answered [(True, "")] in the state that the session had reached at
    one of its requests up to this one. *)
Theorem X11_gate_continues_vetted_requests_only
    (getaddrinfo : Trace -> string -> AddrInfo) (req_urls : list string)
    (host_cache host_cache' : gmap string (bool * string)) (t t' : Trace)
    (actions : list RouteAction) :
  handle_requests getaddrinfo req_urls host_cache t
  = (Return (actions, host_cache'), t') ->
  length actions = length req_urls
  /\ forall (i : nat) req_url,
      req_urls !! i = Some req_url ->
      actions !! i = Some continue_ ->
      exists parsed_req,
        urllib_parse.urlparse req_url = Some parsed_req
        /\ (str_in (urllib_parse.scheme parsed_req) ["data"; "blob"; "about"] = true
            \/ str_in (urllib_parse.scheme parsed_req) ["http"; "https"] = true
               /\ exists h,
                   urllib_parse.hostname parsed_req = Some h
                   /\ ((exists reason, host_cache !! h = Some (true, reason))
                       \/ exists j,
                           (j <= i)%nat
                           /\ _is_public_host getaddrinfo h
                                (session_state getaddrinfo req_urls host_cache t j)
                              = (Return (true, ""),
                                 session_state getaddrinfo req_urls host_cache t
                                   (S j)))).
Proof.
  intros Hrun. exact (handle_requests_origin _ _ _ _ _ _ _ Hrun).
Qed.

(** X14.  [_validate_final_page_url] makes no HTTP request.  It answers
    [(True, "")] only for an [http] or [https] URL with a host name that
    the validator allows in this call; every other answer is a reason
    that begins with ["Blocked final URL: "]. *)
Theorem X14_final_page_url_check (getaddrinfo : Trace -> string -> AddrInfo)
    (page_url : string) (t : Trace) :
  let run := _validate_final_page_url getaddrinfo page_url t in
  http_log (snd run) = http_log t
  /\ forall (ok : bool) (reason : string),
      fst run = Return (ok, reason) ->
      if ok
      then reason = ""
           /\ exists parsed h,
               urllib_parse.urlparse page_url = Some parsed
               /\ str_in (urllib_parse.scheme parsed) ["http"; "https"] = true
               /\ urllib_parse.hostname parsed = Some h
               /\ _is_public_host getaddrinfo h t = (Return (true, ""), snd run)
      else exists detail, reason = "Blocked final URL: " +:+ detail.
Proof.
  cbv zeta.
  unfold _validate_final_page_url, mbind, M_bind, or_ValueError, mret, M_ret.
  destruct (urllib_parse.urlparse page_url) as [parsed|] eqn:Hp; cbn [fst snd];
    [|split; [reflexivity | discriminate]].
  destruct (urllib_parse.hostname parsed) as [h|] eqn:Hh; cbn [fst snd];
    [|split; [reflexivity | intros ok reason [= <- <-]; eauto]].
  destruct (str_in (urllib_parse.scheme parsed) ["http"; "https"]) eqn:Hs;
    cbn [negb fst snd]; [|split; [reflexivity | intros ok reason [= <- <-]; eauto]].
  rewrite is_public_host_returns.
  pose proof (decision_reason_empty_iff getaddrinfo h t) as Hempty.
  destruct (host_decision getaddrinfo h t) as [is_public reason] eqn:Hd.
  cbn [fst snd] in *.
  assert (Hlog : http_log (after_validation getaddrinfo h t) = http_log t)
    by (destruct (after_validation_trace getaddrinfo h t) as [-> | ->]; reflexivity).
  destruct is_public; cbn [negb fst snd]; (split; [exact Hlog|]);
    intros ok reason' [= <- <-]; [|eauto].
  split; [reflexivity|]. exists parsed, h. repeat split; auto.
  rewrite is_public_host_returns, Hd. f_equal. f_equal. f_equal.
  now apply Hempty.
Qed.

Lemma X11_witness :
  length [continue_; continue_; abort; abort]
  = length ["data:text/plain,hi"; "https://example.com/a";
            "http://10.0.0.5/admin"; "https://localhost/"]
  /\ forall (i : nat) req_url,
      ["data:text/plain,hi"; "https://example.com/a";
       "http://10.0.0.5/admin"; "https://localhost/"] !! i = Some req_url ->
      [continue_; continue_; abort; abort] !! i = Some continue_ ->
      exists parsed_req,
        urllib_parse.urlparse req_url = Some parsed_req
        /\ (str_in (urllib_parse.scheme parsed_req) ["data"; "blob"; "about"] = true
            \/ str_in (urllib_parse.scheme parsed_req) ["http"; "https"] = true
               /\ exists h,
                   urllib_parse.hostname parsed_req = Some h
                   /\ ((exists reason,
                           (∅ : gmap string (bool * string)) !! h = Some (true, reason))
                       \/ exists j,
                           (j <= i)%nat
                           /\ _is_public_host mock_getaddrinfo h
                                (session_state mock_getaddrinfo
                                   ["data:text/plain,hi"; "https://example.com/a";
                                    "http://10.0.0.5/admin"; "https://localhost/"]
                                   ∅ no_calls j)
                              = (Return (true, ""),
                                 session_state mock_getaddrinfo
                                   ["data:text/plain,hi"; "https://example.com/a";
                                    "http://10.0.0.5/admin"; "https://localhost/"]
                                   ∅ no_calls (S j)))).
Proof.
  apply (X11_gate_continues_vetted_requests_only mock_getaddrinfo
           ["data:text/plain,hi"; "https://example.com/a";
            "http://10.0.0.5/admin"; "https://localhost/"] ∅
           (<["localhost" := (false, "Blocked non-public IP for localhost: 127.0.0.1")]>
              (<["10.0.0.5" := (false, "Blocked non-public IP: 10.0.0.5")]>
                 {[ "example.com" := (true, "") ]}))
           no_calls
           (after_dns (after_dns no_calls "example.com") "localhost")).
  vm_compute. reflexivity.
Defined.

Lemma X12_witness :
  [continue_; abort] !! 1%nat = Some abort.
Proof.
  apply (X12_gate_aborts_literal_non_public_hosts mock_getaddrinfo
           ["https://example.com/a"; "http://10.0.0.5/admin"] ∅
           (<["10.0.0.5" := (false, "Blocked non-public IP: 10.0.0.5")]>
              {[ "example.com" := (true, "") ]})
           no_calls (after_dns no_calls "example.com") [continue_; abort] 1
           "http://10.0.0.5/admin"
           {| urllib_parse.scheme := "http"; urllib_parse.netloc := "10.0.0.5" |}
           "10.0.0.5" (IPv4Address 167772165)).
  - apply cache_sound_empty.
  - vm_compute. reflexivity.
  - reflexivity.
  - reflexivity.
  - reflexivity.
  - reflexivity.
  - reflexivity.
  - reflexivity.
Defined.

Lemma X13_witness :
  (forall h cached,
      ({[ "example.com" := (true, "") ]} : gmap string (bool * string)) !! h
      = Some cached ->
      (<["localhost" := (false, "Blocked non-public IP for localhost: 127.0.0.1")]>
         {[ "example.com" := (true, "") ]} : gmap string (bool * string)) !! h
      = Some cached)
  /\ http_log (after_dns (after_dns no_calls "example.com") "localhost")
     = http_log (after_dns no_calls "example.com")
  /\ exists new_calls,
      dns_log (after_dns (after_dns no_calls "example.com") "localhost")
      = (new_calls ++ dns_log (after_dns no_calls "example.com"))%list
      /\ NoDup new_calls
      /\ forall h, h ∈ new_calls ->
                   ({[ "example.com" := (true, "") ]}
                    : gmap string (bool * string)) !! h = None
                   /\ is_Some
                        ((<["localhost" :=
                              (false, "Blocked non-public IP for localhost: 127.0.0.1")]>
                            {[ "example.com" := (true, "") ]}
                          : gmap string (bool * string)) !! h).
Proof.
  apply (X13_gate_cache_only_grows mock_getaddrinfo
           ["https://example.com/b"; "https://localhost/"; "https://localhost/x"]
           _ _ _ _ [continue_; abort; abort]).
  vm_compute. reflexivity.
Defined.

(** ** The grades of a landing page *)

Section Grades.

Import analyze_landing.

(** The dictionary that [grade_landing] returns, read key by key. *)
Lemma grade_landing_lookup (result : Result) (check : string) :
  grade_landing result !! check
  = if decide ("form_friction" = check) then
      if form_present (conversion result)
      then Some (if form_fields (conversion result) <=? 5 then "PASS"
                 else if form_fields (conversion result) <=? 8 then "WARNING"
                      else "FAIL")
      else None
    else if decide ("mobile_responsive" = check) then
      Some (if viewport_meta (mobile result)
               && negb (horizontal_scroll (mobile result)) then "PASS" else "FAIL")
    else if decide ("cta_above_fold" = check) then
      Some (if cta_above_fold (conversion result) then "PASS" else "FAIL")
    else if decide ("G61_schema" = check) then
      Some (if product_schema (schema result) || faq_schema (schema result)
               || service_schema (schema result) then "PASS" else "FAIL")
    else if decide ("G60_relevance" = check) then
      Some (if truthy_str (h1 (content result)) then "PASS" else "FAIL")
    else if decide ("G59_mobile_speed" = check) then
      match lcp_ms (performance result) with
      | Some lcp =>
          if lcp =? 0 then None
          else Some (if lcp <? 2500 then "PASS"
                     else if lcp <? 4000 then "WARNING" else "FAIL")
      | None => None
      end
    else None.
Proof.
  unfold grade_landing. cbv zeta.
  destruct (lcp_ms (performance result)) as [lcp|]; cbn [truthy_int];
    [destruct (lcp =? 0); cbn [negb];
     [|destruct (lcp <? 2500); [|destruct (lcp <? 4000)]]|];
    (destruct (form_present (conversion result));
     [destruct (form_fields (conversion result) <=? 5);
      [|destruct (form_fields (conversion result) <=? 8)]|]);
    rewrite ?lookup_insert, ?lookup_empty;
    repeat case_decide; simplify_eq; reflexivity.
Qed.

(** The grade of the LCP check and of the form check. *)
Lemma grade_landing_G59 (result : Result) :
  grade_landing result !! "G59_mobile_speed"
  = match lcp_ms (performance result) with
    | Some lcp =>
        if lcp =? 0 then None
        else Some (if lcp <? 2500 then "PASS"
                   else if lcp <? 4000 then "WARNING" else "FAIL")
    | None => None
    end.
Proof. now rewrite grade_landing_lookup. Qed.

Lemma grade_landing_form_friction (result : Result) :
  grade_landing result !! "form_friction"
  = if form_present (conversion result)
    then Some (if form_fields (conversion result) <=? 5 then "PASS"
               else if form_fields (conversion result) <=? 8 then "WARNING"
                    else "FAIL")
    else None.
Proof. now rewrite grade_landing_lookup. Qed.

(** X15.  The dictionary of grades.  Every grade is ["PASS"],
    ["WARNING"] or ["FAIL"] and belongs to one of six checks; only the
    LCP check and the form check can give ["WARNING"].  Four checks are
    always graded; the LCP check is graded exactly when an LCP other
    than zero was measured, and the form check exactly when the page has
    a form. *)
Theorem X15_grade_keys_and_values (result : Result) :
  (forall check grade,
      grade_landing result !! check = Some grade ->
      check ∈ ["G59_mobile_speed"; "G60_relevance"; "G61_schema";
               "cta_above_fold"; "mobile_responsive"; "form_friction"]
      /\ grade ∈ ["PASS"; "WARNING"; "FAIL"]
      /\ (grade = "WARNING" ->
          check = "G59_mobile_speed" \/ check = "form_friction"))
  /\ Forall (fun check => is_Some (grade_landing result !! check))
       ["G60_relevance"; "G61_schema"; "cta_above_fold"; "mobile_responsive"]
  /\ (is_Some (grade_landing result !! "G59_mobile_speed")
      <-> exists lcp, lcp_ms (performance result) = Some lcp /\ lcp <> 0)
  /\ (is_Some (grade_landing result !! "form_friction")
      <-> form_present (conversion result) = true).
Proof.
  split; [|split; [|split]].
  - intros check grade. rewrite grade_landing_lookup.
    repeat case_decide; try subst check; try discriminate;
      repeat match goal with
             | |- context [match ?o with Some _ => _ | None => _ end] => destruct o
             | |- context [if ?b then _ else _] => destruct b
             end;
      try discriminate; intros [= <-];
      (split; [rewrite ?elem_of_cons; auto 10|]);
      (split; [rewrite ?elem_of_cons; auto | auto; discriminate]).
  - repeat constructor; rewrite grade_landing_lookup; cbn; eauto.
  - rewrite grade_landing_G59.
    destruct (lcp_ms (performance result)) as [lcp|].
    + destruct (Z.eqb_spec lcp 0) as [-> | Hne]; split.
      * now intros [x Hx].
      * intros (l & [= <-] & Hl). now contradict Hl.
      * eauto.
      * eauto.
    + split; [now intros [x Hx] | now intros (l & Hl & _)].
  - rewrite grade_landing_form_friction.
    destruct (form_present (conversion result)); split; eauto.
    + now intros [x Hx].
    + discriminate.
Qed.

(** X16.  The LCP grade never improves when the LCP grows: of two
    measured values other than zero, the larger one gets the same grade
    or a worse one, with ["PASS"] below 2500 ms and ["FAIL"] from 4000 ms
    on; and the LCP value changes no other grade. *)
Theorem X16_lcp_grade_monotone (result : Result) (lcp1 lcp2 : Z) :
  lcp1 <> 0 -> lcp2 <> 0 -> lcp1 <= lcp2 ->
  (exists grade1 grade2,
      grade_landing (with_lcp result (Some lcp1)) !! "G59_mobile_speed" = Some grade1
      /\ grade_landing (with_lcp result (Some lcp2)) !! "G59_mobile_speed" = Some grade2
      /\ (grade_rank grade1 <= grade_rank grade2)%nat
      /\ (grade1 = "PASS" <-> lcp1 < 2500)
      /\ (grade1 = "FAIL" <-> 4000 <= lcp1))
  /\ (forall check,
         check <> "G59_mobile_speed" ->
         grade_landing (with_lcp result (Some lcp1)) !! check
         = grade_landing result !! check).
Proof.
  intros Hne1 Hne2 Hle. split.
  - rewrite !grade_landing_G59. cbn [with_lcp performance lcp_ms].
    destruct (Z.eqb_spec lcp1 0) as [|_]; [contradiction|].
    destruct (Z.eqb_spec lcp2 0) as [|_]; [contradiction|].
    eexists _, _. split; [reflexivity|]. split; [reflexivity|].
    destruct (Z.ltb_spec lcp1 2500), (Z.ltb_spec lcp2 2500),
      (Z.ltb_spec lcp1 4000), (Z.ltb_spec lcp2 4000);
      try lia; cbn; (split; [lia|]); split; split; (lia || discriminate || reflexivity).
  - intros check Hcheck. rewrite !grade_landing_lookup.
    repeat case_decide; subst; try reflexivity. congruence.
Qed.

(** X17.  The form grade never improves when the form grows: of two
    forms, the one with more fields gets the same grade or a worse one,
    with ["PASS"] up to five fields and ["FAIL"] from nine on; and the
    number of fields changes no other grade. *)
Theorem X17_form_grade_monotone (result : Result) (fields1 fields2 : Z) :
  fields1 <= fields2 ->
  (exists grade1 grade2,
      grade_landing (with_form_fields result fields1) !! "form_friction" = Some grade1
      /\ grade_landing (with_form_fields result fields2) !! "form_friction"
         = Some grade2
      /\ (grade_rank grade1 <= grade_rank grade2)%nat
      /\ (grade1 = "PASS" <-> fields1 <= 5)
      /\ (grade1 = "FAIL" <-> 9 <= fields1))
  /\ (forall check,
         check <> "form_friction" ->
         grade_landing (with_form_fields result fields1) !! check
         = grade_landing result !! check).
Proof.
  intros Hle. split.
  - rewrite !grade_landing_form_friction.
    cbn [with_form_fields conversion form_present form_fields].
    eexists _, _. split; [reflexivity|]. split; [reflexivity|].
    destruct (Z.leb_spec fields1 5), (Z.leb_spec fields2 5),
      (Z.leb_spec fields1 8), (Z.leb_spec fields2 8);
      try lia; cbn; (split; [lia|]); split; split; (lia || discriminate || reflexivity).
  - intros check Hcheck. rewrite !grade_landing_lookup.
    repeat case_decide; subst; try reflexivity. congruence.
Qed.

(** X18.  The label that [main] prints beside the LCP agrees with the
    grade: ["GOOD"] exactly when the check passes, ["SLOW"] exactly when
    it gives a warning or fails, and ["N/A"] exactly when the check is not
    graded. *)
Theorem X18_lcp_label_agrees_with_grade (result : Result) :
  let label := lcp_status (lcp_ms (performance result)) in
  let grade := grade_landing result !! "G59_mobile_speed" in
  (label = "GOOD" <-> grade = Some "PASS")
  /\ (label = "SLOW" <-> grade = Some "WARNING" \/ grade = Some "FAIL")
  /\ (label = "N/A" <-> grade = None).
Proof.
  cbv zeta. rewrite grade_landing_G59. unfold lcp_status.
  destruct (lcp_ms (performance result)) as [lcp|]; cbn [truthy_int].
  - destruct (lcp =? 0); cbn [negb andb];
      [|destruct (lcp <? 2500); [|destruct (lcp <? 4000)]];
      repeat split; try discriminate; try reflexivity; auto;
      intros [H | H]; discriminate.
  - repeat split; try discriminate; intros [H | H]; discriminate.
Qed.

End Grades.

Lemma X16_witness :
  (exists grade1 grade2,
      analyze_landing.grade_landing (with_lcp landing_sample (Some 1800))
        !! "G59_mobile_speed" = Some grade1
      /\ analyze_landing.grade_landing (with_lcp landing_sample (Some 4000))
           !! "G59_mobile_speed" = Some grade2
      /\ (grade_rank grade1 <= grade_rank grade2)%nat
      /\ (grade1 = "PASS" <-> 1800 < 2500)
      /\ (grade1 = "FAIL" <-> 4000 <= 1800))
  /\ (forall check,
         check <> "G59_mobile_speed" ->
         analyze_landing.grade_landing (with_lcp landing_sample (Some 1800)) !! check
         = analyze_landing.grade_landing landing_sample !! check).
Proof.
  apply (X16_lcp_grade_monotone landing_sample 1800 4000); lia.
Defined.

Lemma X17_witness :
  (exists grade1 grade2,
      analyze_landing.grade_landing (with_form_fields landing_sample 5)
        !! "form_friction" = Some grade1
      /\ analyze_landing.grade_landing (with_form_fields landing_sample 9)
           !! "form_friction" = Some grade2
      /\ (grade_rank grade1 <= grade_rank grade2)%nat
      /\ (grade1 = "PASS" <-> 5 <= 5)
      /\ (grade1 = "FAIL" <-> 9 <= 5))
  /\ (forall check,
         check <> "form_friction" ->
         analyze_landing.grade_landing (with_form_fields landing_sample 5) !! check
         = analyze_landing.grade_landing landing_sample !! check).
Proof.
  apply (X17_form_grade_monotone landing_sample 5 9). lia.
Defined.

(** ** The file name of a screenshot *)







(** The viewports of the ads script are among those of the SEO script. *)
Lemma VIEWPORTS_keys_ads_subset (viewport : string) :
  viewport ∈ capture_screenshot.VIEWPORTS_keys_ads ->
  viewport ∈ capture_screenshot.VIEWPORTS_keys.
Proof.
  unfold capture_screenshot.VIEWPORTS_keys_ads, capture_screenshot.VIEWPORTS_keys.
  rewrite !elem_of_cons. intuition auto.
Qed.


